(** * Upload relay (server.js): a shallow embedding and its contract

    The relay is an Express application with three routes.  This file
    embeds [extractAccessToken] and the handlers of [POST /upload] and
    [POST /test-auth] as functions over an explicit world (filesystem and
    Drive client), an event trace (console, filesystem and provider calls)
    and a JavaScript completion (returned or thrown), and proves the
    relay's behavioural contract about them.

    An awaited provider call settles: it resolves or it rejects.  What the
    process does when the read stream of line 123 emits an error, for which
    the source registers no listener, is not part of the model.

    Strings are sequences of 8-bit characters; a literal of the source that
    is not ASCII appears in its UTF-8 encoding.  A JavaScript object is the
    list of its own properties in enumeration order. *)

From Stdlib Require Import String Ascii List Bool Arith NArith Lia.
Import ListNotations.
Open Scope string_scope.

Set Warnings "-register-all".

(** ** JavaScript strings and objects *)

Module Js.

(** [s.startsWith(p)] *)
Definition startsWith (s p : string) : bool := String.prefix p s.

(** [s.substring(a)]: from index [a] to the end of [s]. *)
Definition substring_from (s : string) (a : nat) : string :=
  String.substring a (String.length s - a) s.

(** [s.substring(a, b)]: the smaller index is the start, and both are
    clamped to the length of [s]. *)
Definition substring (s : string) (a b : nat) : string :=
  String.substring (Nat.min a b) (Nat.max a b - Nat.min a b) s.

(** A string-valued property that is [undefined] is [None]; the empty
    string is the only falsy string.  [truthy_value v] is the value of [v]
    where [v] is truthy: what the true branch of [if (v)] and the code after
    [if (!v) return] see. *)
Definition truthy_value (v : option string) : option string :=
  match v with
  | Some s => if s =? EmptyString then None else Some s
  | None => None
  end.

(** [a || b] for a string-or-undefined [a] and a string [b]. *)
Definition or_else (a : option string) (b : string) : string :=
  match truthy_value a with
  | Some s => s
  | None => b
  end.

(** [n || d] for a number-or-undefined [n]: [0] is the falsy number. *)
Definition num_or_else (n : option N) (d : N) : N :=
  match n with
  | Some k => if (k =? 0)%N then d else k
  | None => d
  end.

(** [a || b] for an array-or-undefined [a]: every array is truthy, the
    empty one too. *)
Definition arr_or_else {A : Type} (a : option (list A)) (b : list A) : list A :=
  match a with
  | Some l => l
  | None => b
  end.

(** An object with values in [V]: its own properties, in order. *)
Definition Obj (V : Type) : Type := list (string * V).

(** [o[k]]: the value of the first property named [k], [None] for
    [undefined]. *)
Fixpoint get {V : Type} (o : Obj V) (k : string) : option V :=
  match o with
  | [] => None
  | (k', v) :: rest => if k' =? k then Some v else get rest k
  end.

Definition keys {V : Type} (o : Obj V) : list string := map fst o.

(** Values the relay hands to [res.json] or passes through from the
    provider. *)
Inductive Val : Type :=
| Undefined
| Null
| Str (s : string)
| Arr (elems : list Val)
| Object (props : list (string * Val)).

(** A string-or-undefined property as a value. *)
Definition of_option (v : option string) : Val :=
  match v with
  | Some s => Str s
  | None => Undefined
  end.

(** [o.k] on an object of values: [undefined] when [o] has no such
    property. *)
Definition prop (o : Obj Val) (k : string) : Val :=
  match get o k with
  | Some v => v
  | None => Undefined
  end.

End Js.

Import Js.

(** ** Requests *)

(** [req.headers] (Node lower-cases header names and gives every value as a
    string) and [req.body] as parsed by [express.json()], whose fields are
    the strings of an UploadRequest. *)
Record Request : Type := mkRequest {
  headers : Obj string;
  body : Obj string
}.

(** ** Credential extraction (server.js, [extractAccessToken]) *)

Definition extractAccessToken (req : Request) : option string :=
  let authHeader := get (headers req) "authorization" in
  match truthy_value authHeader with
  | Some a =>
      if startsWith a "Bearer " then Some (substring_from a 7)
      else truthy_value (get (headers req) "x-goog-authenticated-user-oauth2")
  | None => truthy_value (get (headers req) "x-goog-authenticated-user-oauth2")
  end.

(** ** [JSON.stringify(o, null, 2)] on an object of strings *)

Module Json.

Definition dquote : ascii := "034"%char.
Definition backslash : ascii := "092"%char.
Definition newline : ascii := "010"%char.

Definition hex_digit (n : N) : ascii :=
  match String.get (N.to_nat n) "0123456789abcdef" with
  | Some c => c
  | None => "0"%char
  end.

(** QuoteJSONString, one code unit at a time. *)
Definition escape (c : ascii) : string :=
  let n := N_of_ascii c in
  if (n =? 34)%N then String backslash (String dquote EmptyString)
  else if (n =? 92)%N then String backslash (String backslash EmptyString)
  else if (n =? 8)%N then "\b"
  else if (n =? 9)%N then "\t"
  else if (n =? 10)%N then "\n"
  else if (n =? 12)%N then "\f"
  else if (n =? 13)%N then "\r"
  else if (n <? 32)%N then
    "\u00" ++ String (hex_digit (n / 16)) (String (hex_digit (n mod 16)) EmptyString)
  else String c EmptyString.

Fixpoint escape_all (s : string) : string :=
  match s with
  | EmptyString => EmptyString
  | String c rest => escape c ++ escape_all rest
  end.

Definition quote (s : string) : string :=
  String dquote (escape_all s ++ String dquote EmptyString).

Definition member (kv : string * string) : string :=
  "  " ++ quote (fst kv) ++ ": " ++ quote (snd kv).

Fixpoint members (o : Obj string) : string :=
  match o with
  | [] => EmptyString
  | [kv] => member kv
  | kv :: rest => member kv ++ "," ++ String newline (members rest)
  end.

Definition stringify (o : Obj string) : string :=
  match o with
  | [] => "{}"
  | _ => "{" ++ String newline (members o) ++ String newline "}"
  end.

End Json.

(** ** The world of a request: filesystem, [path] and the Drive client *)

(** [fileMetadata], the [requestBody] of [drive.files.create]; [parents] is
    [None] when the property was never set. *)
Record FileMetadata : Type := mkFileMetadata {
  name : string;
  mimeType : string;
  parents : option (list string)
}.

(** [fs.createReadStream(path)] *)
Inductive ReadStream : Type := ReadStreamOf (path : string).

Record Media : Type := mkMedia {
  media_mimeType : string;
  media_body : ReadStream
}.

Record CreateParams : Type := mkCreateParams {
  requestBody : FileMetadata;
  media : Media;
  fields : string
}.

Record ListParams : Type := mkListParams {
  pageSize : N;
  list_fields : string
}.

(** [google.drive({ version, auth })] where [auth] carries the credentials
    [{ access_token }] and nothing else. *)
Record DriveClient : Type := mkDriveClient {
  version : string;
  access_token : string
}.

(** The error payload of the provider, [error.response.data.error]. *)
Record GoogleError : Type := mkGoogleError {
  code : option N;
  g_message : option string;
  errors : option (list Val)
}.

Record ErrorData : Type := mkErrorData {
  data_error : option GoogleError
}.

Record ErrorResponse : Type := mkErrorResponse {
  response_status : option N;
  response_data : option ErrorData
}.

(** What a rejected call throws: [error.message] and [error.response]. *)
Record JsError : Type := mkJsError {
  error_message : option string;
  error_response : option ErrorResponse
}.

(** How an awaited provider call settles; [Resolved d] carries
    [response.data]. *)
Inductive Outcome (A : Type) : Type :=
| Resolved (data : A)
| Rejected (error : JsError).

Arguments Resolved {A} data.
Arguments Rejected {A} error.

Record World : Type := mkWorld {
  fs_existsSync : string -> bool;
  path_basename : string -> string;
  drive_files_create : DriveClient -> CreateParams -> Outcome (Obj Val);
  drive_files_list : DriveClient -> ListParams -> Outcome (list (Obj Val))
}.

(** ** Events and the handler monad *)

Inductive LogArg : Type :=
| LText (s : string)
| LMetadata (m : FileMetadata)
| LData (d : Obj Val)
| LError (e : JsError).

Inductive Event : Type :=
| ConsoleLog (args : list LogArg)
| ConsoleError (args : list LogArg)
| FsExistsSync (path : string)
| FsCreateReadStream (path : string)
| DriveFilesCreate (drive : DriveClient) (params : CreateParams)
| DriveFilesList (drive : DriveClient) (params : ListParams).

Inductive Completion (A : Type) : Type :=
| Returned (a : A)
| Thrown (e : JsError).

Arguments Returned {A} a.
Arguments Thrown {A} e.

(** A handler reads the world, appends to the trace and returns or throws. *)
Definition M (A : Type) : Type :=
  World -> list Event -> Completion A * list Event.

Definition ret {A : Type} (a : A) : M A := fun _ t => (Returned a, t).

Definition bind {A B : Type} (m : M A) (k : A -> M B) : M B :=
  fun w t =>
    match m w t with
    | (Returned a, t') => k a w t'
    | (Thrown e, t') => (Thrown e, t')
    end.

Definition emit (ev : Event) : M unit :=
  fun _ t => (Returned tt, (t ++ [ev])%list).

Definition await {A : Type} (o : World -> Outcome A) : M A :=
  fun w t =>
    match o w with
    | Resolved a => (Returned a, t)
    | Rejected e => (Thrown e, t)
    end.

(** [try { body } catch (error) { handler }] *)
Definition try_catch {A : Type} (body : M A) (handler : JsError -> M A) : M A :=
  fun w t =>
    match body w t with
    | (Returned a, t') => (Returned a, t')
    | (Thrown e, t') => handler e w t'
    end.

Notation "x <- c1 ;; c2" := (bind c1 (fun x => c2))
  (at level 61, c1 at next level, right associativity).
Notation "c1 ;; c2" := (bind c1 (fun _ => c2))
  (at level 61, right associativity).

Definition console_log (args : list LogArg) : M unit := emit (ConsoleLog args).
Definition console_error (args : list LogArg) : M unit := emit (ConsoleError args).

Definition existsSync (p : string) : M bool :=
  emit (FsExistsSync p) ;; (fun w t => (Returned (fs_existsSync w p), t)).

(** [path.basename(p)]: pure, so evaluating it before [||] needs it changes
    nothing. *)
Definition basename (p : string) : M string :=
  fun w t => (Returned (path_basename w p), t).

(** [fs.createReadStream(p)] only makes the stream.  Line 123 registers no
    listener on it, so a failure to read the file is no rejection of the call
    that consumes the stream and does not reach the [catch] block; the model
    has no such failure. *)
Definition createReadStream (p : string) : M ReadStream :=
  emit (FsCreateReadStream p) ;; ret (ReadStreamOf p).

Definition files_create (drive : DriveClient) (params : CreateParams) : M (Obj Val) :=
  emit (DriveFilesCreate drive params) ;;
  await (fun w => drive_files_create w drive params).

Definition files_list (drive : DriveClient) (params : ListParams) : M (list (Obj Val)) :=
  emit (DriveFilesList drive params) ;;
  await (fun w => drive_files_list w drive params).

(** ** Responses *)

(** [res.status(status).json(json)]; [res.json(json)] alone has status 200.
    [json] is the value handed to [res.json]. *)
Record Response : Type := mkResponse {
  status : N;
  json : Val
}.

(** [{ error, details }] *)
Definition envelope (error details : Val) : Val :=
  Object [("error", error); ("details", details)].

Definition detail (message domain reason location locationType : string) : Val :=
  Object [("message", Str message); ("domain", Str domain); ("reason", Str reason);
          ("location", Str location); ("locationType", Str locationType)].

(** ** [POST /upload] (server.js, lines 43-189) *)

(** [fileMetadata.parents = [folderId]] *)
Definition set_parents (m : FileMetadata) (folderId : string) : FileMetadata :=
  mkFileMetadata (name m) (mimeType m) (Some [folderId]).

(** Lines 110-118: [fileMetadata] from the fields of the body; [base] is
    [path.basename(filePath)]. *)
Definition fileMetadata (fileName mime folderId : option string) (base : string)
  : FileMetadata :=
  let metadata :=
    mkFileMetadata (or_else fileName base) (or_else mime "video/mp4") None in
  match truthy_value folderId with
  | Some folderId =>
      if folderId =? "root" then metadata else set_parents metadata folderId
  | None => metadata
  end.

(** The body of the [try] block. *)
Definition upload_try (req : Request) : M Response :=
  let accessToken := extractAccessToken req in
  match truthy_value accessToken with
  | None =>
      console_error [LText "Token não encontrado nos headers"] ;;
      ret (mkResponse 401
             (envelope (Str "Invalid Credentials")
                (Arr [detail "No access token provided" "global" "authError"
                        "Authorization" "header"])))
  | Some accessToken =>
      console_log [LText "Token encontrado:";
                   LText (substring accessToken 0 20 ++ "...")] ;;
      let drive := mkDriveClient "v3" accessToken in
      let filePath := get (body req) "filePath" in
      let fileName := get (body req) "fileName" in
      let folderId := get (body req) "folderId" in
      let mime := get (body req) "mimeType" in
      match truthy_value filePath with
      | None =>
          ret (mkResponse 400
                 (envelope (Str "Bad Request")
                    (Arr [detail "filePath is required" "global" "required"
                            "filePath" "parameter"])))
      | Some filePath =>
          console_log [LText ("Tentando fazer upload do arquivo: " ++ filePath)] ;;
          found <- existsSync filePath ;;
          if negb found then
            ret (mkResponse 404
                   (envelope (Str "File Not Found")
                      (Arr [detail ("File not found: " ++ filePath) "global"
                              "notFound" "filePath" "parameter"])))
          else
            base <- basename filePath ;;
            let metadata := fileMetadata fileName mime folderId base in
            stream <- createReadStream filePath ;;
            let media := mkMedia (mimeType metadata) stream in
            console_log [LText "Iniciando upload para o Google Drive..."] ;;
            console_log [LText "Metadados:"; LMetadata metadata] ;;
            data <- files_create drive
                      (mkCreateParams metadata media
                         "id, name, webViewLink, webContentLink, mimeType, size") ;;
            console_log [LText "Upload concluído com sucesso!"] ;;
            console_log [LText "Resposta:"; LData data] ;;
            ret (mkResponse 200
                   (Object [("file",
                             Object [("id", prop data "id");
                                     ("name", prop data "name");
                                     ("webViewLink", prop data "webViewLink");
                                     ("webContentLink", prop data "webContentLink");
                                     ("mimeType", prop data "mimeType");
                                     ("size", prop data "size")])]))
      end
  end.

(** [error.response && error.response.data && error.response.data.error]:
    the response and the payload [googleError] when all three are there. *)
Definition structured (error : JsError) : option (ErrorResponse * GoogleError) :=
  match error_response error with
  | Some response =>
      match response_data response with
      | Some data =>
          match data_error data with
          | Some googleError => Some (response, googleError)
          | None => None
          end
      | None => None
      end
  | None => None
  end.

(** [googleError.code === n] *)
Definition code_is (googleError : GoogleError) (n : N) : bool :=
  match code googleError with
  | Some c => (c =? n)%N
  | None => false
  end.

(** The [catch] block. *)
Definition upload_catch (error : JsError) : M Response :=
  console_error [LText "Erro durante o upload:"; LError error] ;;
  match structured error with
  | Some (response, googleError) =>
      if code_is googleError 401 then
        ret (mkResponse 401
               (envelope (Str "Invalid Credentials")
                  (Arr (arr_or_else (errors googleError)
                          [detail "The access token is expired or invalid" "global"
                             "authError" "Authorization" "header"]))))
      else
        ret (mkResponse (num_or_else (response_status response) 500)
               (envelope (Str (or_else (g_message googleError) "Google Drive API Error"))
                  (Arr (arr_or_else (errors googleError) []))))
  | None =>
      ret (mkResponse 500
             (envelope (Str "Internal Server Error")
                (Arr [Object [("message",
                               Str (or_else (error_message error)
                                      "An unexpected error occurred"));
                              ("domain", Str "global");
                              ("reason", Str "internalError")]])))
  end.

Definition upload (req : Request) : M Response :=
  console_log [LText "=== Nova requisição de upload ==="] ;;
  console_log [LText "Headers:"; LText (Json.stringify (headers req))] ;;
  console_log [LText "Body:"; LText (Json.stringify (body req))] ;;
  try_catch (upload_try req) upload_catch.

(** ** [POST /test-auth] (server.js, lines 201-232) *)

Definition test_auth (req : Request) : M Response :=
  try_catch
    (let accessToken := extractAccessToken req in
     match truthy_value accessToken with
     | None =>
         ret (mkResponse 401 (Object [("error", Str "No access token provided")]))
     | Some accessToken =>
         let drive := mkDriveClient "v3" accessToken in
         files <- files_list drive (mkListParams 1 "files(id, name)") ;;
         ret (mkResponse 200
                (Object [("status", Str "authenticated");
                         ("message", Str "Token is valid");
                         ("testFile",
                          match files with
                          | first :: _ => Object first
                          | [] => Null
                          end)]))
     end)
    (fun error =>
       ret (mkResponse 401
              (Object [("error", Str "Invalid token");
                       ("details", of_option (error_message error))]))).

(** ** Running a handler *)

Definition run {A : Type} (m : M A) (w : World) : Completion A * list Event :=
  m w [].

(** What the handler sent, and everything it did, on one request. *)
Definition upload_result (w : World) (req : Request) : Completion Response :=
  fst (run (upload req) w).

Definition upload_trace (w : World) (req : Request) : list Event :=
  snd (run (upload req) w).

Definition test_auth_result (w : World) (req : Request) : Completion Response :=
  fst (run (test_auth req) w).

Definition test_auth_trace (w : World) (req : Request) : list Event :=
  snd (run (test_auth req) w).

(** ** A concrete world, for running the handlers *)

Module Example.

(** [path.basename] on POSIX: trailing slashes dropped, then the part after
    the last slash. *)
Fixpoint drop_slashes (rev_path : list ascii) : list ascii :=
  match rev_path with
  | c :: rest => if Ascii.eqb c "/"%char then drop_slashes rest else rev_path
  | [] => []
  end.

Fixpoint take_segment (rev_path : list ascii) : list ascii :=
  match rev_path with
  | c :: rest => if Ascii.eqb c "/"%char then [] else c :: take_segment rest
  | [] => []
  end.

Definition posix_basename (p : string) : string :=
  string_of_list_ascii
    (rev (take_segment (drop_slashes (rev (list_ascii_of_string p))))).

Definition created : Obj Val :=
  [("id", Str "1AbC"); ("name", Str "clip.mp4");
   ("webViewLink", Str "https://drive.google.com/file/d/1AbC/view");
   ("webContentLink", Str "https://drive.google.com/uc?id=1AbC");
   ("mimeType", Str "video/mp4"); ("size", Str "1048576")].

Definition listed : list (Obj Val) :=
  [[("id", Str "1AbC"); ("name", Str "clip.mp4")]].

(** A provider that accepts every call, and a disk that holds one file. *)
Definition accepting : World :=
  mkWorld (fun p => p =? "/data/clip.mp4") posix_basename
          (fun _ _ => Resolved created) (fun _ _ => Resolved listed).

(** A provider that rejects every call with [error]. *)
Definition rejecting (error : JsError) : World :=
  mkWorld (fun p => p =? "/data/clip.mp4") posix_basename
          (fun _ _ => Rejected error) (fun _ _ => Rejected error).

Definition bearer (token : string) : Obj string :=
  [("content-type", "application/json"); ("authorization", "Bearer " ++ token)].

Definition token : string := "ya29.a0AfB_byC-0123456789abcdefghij".

(** An upload of the file the disk holds. *)
Definition clip_request : Request :=
  mkRequest (bearer token) [("filePath", "/data/clip.mp4")].

(** What the provider sends on an expired token. *)
Definition unauthorized_payload : GoogleError :=
  mkGoogleError (Some 401%N) (Some "Invalid Credentials")
    (Some [Object [("domain", Str "global"); ("reason", Str "authError");
                   ("message", Str "Invalid Credentials")]]).

Definition payload_error (status : N) (payload : GoogleError) : JsError :=
  mkJsError (Some "Request failed")
    (Some (mkErrorResponse (Some status) (Some (mkErrorData (Some payload))))).

(** A payload whose message is the empty string. *)
Definition silent_payload : GoogleError :=
  mkGoogleError (Some 403%N) (Some EmptyString)
    (Some [Object [("domain", Str "usageLimits"); ("reason", Str "rateLimitExceeded")]]).

(** The call rejects before any response of the provider: the network is
    down, and the error carries no payload. *)
Definition network_error : JsError :=
  mkJsError (Some "getaddrinfo ENOTFOUND www.googleapis.com") None.

End Example.

(** ** Vocabulary of the statements *)

Definition alternate_header : string := "x-goog-authenticated-user-oauth2".

(** The [Authorization] header does not carry a bearer credential: it is
    missing, or its value does not start with the prefix. *)
Definition no_bearer (req : Request) : Prop :=
  forall rest, get (headers req) "authorization" <> Some ("Bearer " ++ rest).

(** The three lines logged before the [try] block. *)
Definition preamble (req : Request) : list Event :=
  [ConsoleLog [LText "=== Nova requisição de upload ==="];
   ConsoleLog [LText "Headers:"; LText (Json.stringify (headers req))];
   ConsoleLog [LText "Body:"; LText (Json.stringify (body req))]].

(** The client and the parameters of the create-object call of a request
    whose token is [accessToken] and whose file is [filePath]. *)
Definition drive_with (accessToken : string) : DriveClient :=
  mkDriveClient "v3" accessToken.

(** The listing call of [POST /test-auth]. *)
Definition probe : ListParams := mkListParams 1 "files(id, name)".

Definition upload_metadata (w : World) (req : Request) (filePath : string)
  : FileMetadata :=
  fileMetadata (get (body req) "fileName") (get (body req) "mimeType")
    (get (body req) "folderId") (path_basename w filePath).

Definition upload_params (w : World) (req : Request) (filePath : string)
  : CreateParams :=
  mkCreateParams (upload_metadata w req filePath)
    (mkMedia (mimeType (upload_metadata w req filePath)) (ReadStreamOf filePath))
    "id, name, webViewLink, webContentLink, mimeType, size".

(** Everything the handler did up to and including the create-object
    call. *)
Definition trace_to_create (w : World) (req : Request) (accessToken filePath : string)
  : list Event :=
  (preamble req ++
   [ConsoleLog [LText "Token encontrado:"; LText (substring accessToken 0 20 ++ "...")];
    ConsoleLog [LText ("Tentando fazer upload do arquivo: " ++ filePath)];
    FsExistsSync filePath;
    FsCreateReadStream filePath;
    ConsoleLog [LText "Iniciando upload para o Google Drive..."];
    ConsoleLog [LText "Metadados:"; LMetadata (upload_metadata w req filePath)];
    DriveFilesCreate (drive_with accessToken) (upload_params w req filePath)])%list.

(** The request passes the three checks of the handler with this token and
    this path. *)
Definition passes_checks (w : World) (req : Request) (accessToken filePath : string)
  : Prop :=
  truthy_value (extractAccessToken req) = Some accessToken /\
  truthy_value (get (body req) "filePath") = Some filePath /\
  fs_existsSync w filePath = true.

(** The error carries no payload of the provider: the test of the [catch]
    block fails at [error.response], at its [data] or at [data.error]. *)
Definition unstructured (error : JsError) : Prop :=
  error_response error = None \/
  (exists response,
      error_response error = Some response /\ response_data response = None) \/
  (exists response data,
      error_response error = Some response /\ response_data response = Some data /\
      data_error data = None).

(** [needle] occurs in [text]. *)
Definition occurs (needle text : string) : bool :=
  match String.index 0 needle text with
  | Some _ => true
  | None => false
  end.

(** ** The contract as the specification words it

    In these readings a header or a field that is present counts whatever its
    value, and a fallback applies only to what is absent. *)

(** Credential extraction: the remainder after the prefix of a bearer
    Authorization header, else the raw value of the alternate header when
    present, else absent. *)
Definition extractAccessToken_spec (req : Request) : option string :=
  match get (headers req) "authorization" with
  | Some a =>
      if startsWith a "Bearer " then Some (substring_from a 7)
      else get (headers req) alternate_header
  | None => get (headers req) alternate_header
  end.

(** The checks of the upload handler: no extracted token, 401; else no
    filePath field, 400; else no file at filePath, 404 and no create-object
    call. *)
Definition upload_checks_spec (w : World) (req : Request) : Prop :=
  (extractAccessToken req = None ->
   exists details,
     upload_result w req
       = Returned (mkResponse 401 (envelope (Str "Invalid Credentials") details))) /\
  (forall accessToken,
      extractAccessToken req = Some accessToken ->
      get (body req) "filePath" = None ->
      exists details,
        upload_result w req
          = Returned (mkResponse 400 (envelope (Str "Bad Request") details))) /\
  (forall accessToken filePath,
      extractAccessToken req = Some accessToken ->
      get (body req) "filePath" = Some filePath ->
      fs_existsSync w filePath = false ->
      (exists details,
          upload_result w req
            = Returned (mkResponse 404 (envelope (Str "File Not Found") details))) /\
      forall drive params, ~ In (DriveFilesCreate drive params) (upload_trace w req)).

(** [v], or [d] when [v] is absent. *)
Definition default {A : Type} (d : A) (v : option A) : A :=
  match v with
  | Some a => a
  | None => d
  end.

(** The response to a structured provider error other than 401: the status,
    the message and the error list of the provider, each with its fallback
    when absent. *)
Definition relay_error_spec (response : ErrorResponse) (googleError : GoogleError)
  : Response :=
  mkResponse (default 500%N (response_status response))
    (envelope (Str (default "Google Drive API Error" (g_message googleError)))
       (Arr (default [] (errors googleError)))).

(** The destination metadata: fileName when supplied, else the basename;
    mimeType when supplied, else the default; folderId as parent unless it
    is the sentinel. *)
Definition fileMetadata_spec (fileName mime folderId : option string) (base : string)
  : FileMetadata :=
  mkFileMetadata (default base fileName) (default "video/mp4" mime)
    (match folderId with
     | Some folderId => if folderId =? "root" then None else Some [folderId]
     | None => None
     end).

(** How many create-object calls a trace holds. *)
Definition is_create (ev : Event) : bool :=
  match ev with
  | DriveFilesCreate _ _ => true
  | _ => false
  end.

Definition create_calls (t : list Event) : nat := length (filter is_create t).

(** ** The CORS middleware, the health check and the application
    (server.js, lines 16-24 and 192-198) *)

(** What the application did with [res]: the calls of [res.header], in
    order, and what was sent. *)
Inductive Sent : Type :=
| SentJson (response : Response)
| SentStatus (code : N)
| Unrouted.

Record Reply : Type := mkReply {
  header_calls : list (string * string);
  sent : Sent
}.

(** [res.header(name, value)] *)
Definition res_header (name value : string) (calls : list (string * string))
  : list (string * string) :=
  (calls ++ [(name, value)])%list.

(** The middleware of lines 16-24; [next] is the rest of the chain. *)
Definition cors (method : string) (next : M Sent) : M Reply :=
  let res := res_header "Access-Control-Allow-Origin" "*" [] in
  let res :=
    res_header "Access-Control-Allow-Headers"
      "Origin, X-Requested-With, Content-Type, Accept, Authorization" res in
  let res := res_header "Access-Control-Allow-Methods" "GET, POST, PUT, DELETE, OPTIONS" res in
  if method =? "OPTIONS" then ret (mkReply res (SentStatus 200))
  else sent <- next ;; ret (mkReply res sent).

(** [GET /health]; [now] is [new Date().toISOString()]. *)
Definition health (now : string) : M Response :=
  ret (mkResponse 200
         (Object [("status", Str "ok"); ("timestamp", Str now);
                  ("version", Str "1.0.0")])).

(** The routes the file registers. *)
Inductive Route : Type :=
| UploadRoute
| HealthRoute
| TestAuthRoute.

(** The handler of the route the request matched; a request that matches
    none is left to Express. *)
Definition handle (now : string) (route : option Route) (req : Request) : M Sent :=
  match route with
  | Some UploadRoute => response <- upload req ;; ret (SentJson response)
  | Some HealthRoute => response <- health now ;; ret (SentJson response)
  | Some TestAuthRoute => response <- test_auth req ;; ret (SentJson response)
  | None => ret Unrouted
  end.

(** The chain from the CORS middleware on.  [router] is the matching Express
    does of a method and a path against [app.post('/upload')],
    [app.get('/health')] and [app.post('/test-auth')]. *)
Definition app_chain (router : string -> string -> option Route) (now : string)
           (method path : string) (req : Request) : M Reply :=
  cors method (handle now (router method path) req).

(** A router that matches the method and the path exactly, for running the
    application. *)
Definition exact_router (method path : string) : option Route :=
  if (method =? "POST") && (path =? "/upload") then Some UploadRoute
  else if (method =? "GET") && (path =? "/health") then Some HealthRoute
  else if (method =? "POST") && (path =? "/test-auth") then Some TestAuthRoute
  else None.

(** A console event. *)
Definition is_console (ev : Event) : bool :=
  match ev with
  | ConsoleLog _ | ConsoleError _ => true
  | _ => false
  end.

(** ** Proof automation *)

(** Unfolds the handlers and the monad down to the matches on the checks. *)
Ltac unfold_handler :=
  cbv beta iota zeta delta
    [run upload upload_try test_auth try_catch bind ret emit await console_log
     console_error existsSync basename createReadStream files_create files_list
     upload_result upload_trace test_auth_result test_auth_trace fst snd
     preamble trace_to_create drive_with probe upload_params upload_metadata app negb].

(** Rewrites the outcome of each check in turn, reducing in between. *)
Ltac run_with H := rewrite H; unfold_handler.

(** Unfolds the chain down to the test on the method and the route. *)
Ltac unfold_app :=
  cbv beta iota zeta delta [app_chain cors handle health res_header run bind ret].

(** * Properties *)

(** ** JavaScript strings *)

Lemma startsWith_append (p rest : string) : startsWith (p ++ rest) p = true.
Proof.
  unfold startsWith.
  induction p as [|c p IH]; simpl.
  - now destruct rest.
  - destruct (ascii_dec c c) as [_|Hne]; [exact IH|now elim Hne].
Qed.

Lemma startsWith_inv (p s : string) :
  startsWith s p = true -> exists rest, s = p ++ rest.
Proof.
  unfold startsWith. revert s.
  induction p as [|c p IH]; intros s H.
  - now exists s.
  - destruct s as [|c' s]; simpl in H; [discriminate|].
    destruct (ascii_dec c c') as [->|]; [|discriminate].
    destruct (IH _ H) as [rest ->].
    now exists rest.
Qed.

Lemma substring_whole (s : string) : String.substring 0 (String.length s) s = s.
Proof.
  induction s as [|c s IH]; simpl; [reflexivity|now rewrite IH].
Qed.

Lemma substring_from_append (p rest : string) :
  substring_from (p ++ rest) (String.length p) = rest.
Proof.
  unfold substring_from.
  induction p as [|c p IH]; simpl.
  - rewrite Nat.sub_0_r. apply substring_whole.
  - exact IH.
Qed.

Lemma truthy_value_Some (v : option string) (s : string) :
  truthy_value v = Some s <-> v = Some s /\ s <> EmptyString.
Proof.
  unfold truthy_value.
  destruct v as [x|]; [|split; [discriminate|now intros [? _]]].
  destruct (String.eqb_spec x EmptyString) as [->|Hne]; split.
  - discriminate.
  - intros [[= <-] Hs]. now elim Hs.
  - now intros [= <-].
  - now intros [[= <-] _].
Qed.

Lemma truthy_value_None (v : option string) :
  truthy_value v = None <-> v = None \/ v = Some EmptyString.
Proof.
  unfold truthy_value.
  destruct v as [x|]; [|split; auto].
  destruct (String.eqb_spec x EmptyString) as [->|Hne]; split.
  - now right.
  - reflexivity.
  - discriminate.
  - intros [H|H]; [discriminate|].
    injection H as H. contradiction.
Qed.

Lemma or_else_truthy (s d : string) :
  s <> EmptyString -> or_else (Some s) d = s.
Proof.
  intros Hs. unfold or_else.
  now rewrite (proj2 (truthy_value_Some (Some s) s) (conj eq_refl Hs)).
Qed.

Lemma or_else_falsy (v : option string) (d : string) :
  v = None \/ v = Some EmptyString -> or_else v d = d.
Proof.
  intros H. unfold or_else.
  now rewrite (proj2 (truthy_value_None v) H).
Qed.

(** ** Credential extraction *)

Lemma extractAccessToken_bearer (req : Request) (rest : string) :
  get (headers req) "authorization" = Some ("Bearer " ++ rest) ->
  extractAccessToken req = Some rest.
Proof.
  intros H. unfold extractAccessToken. rewrite H.
  change (truthy_value (Some ("Bearer " ++ rest))) with (Some ("Bearer " ++ rest)).
  cbv beta iota.
  rewrite (startsWith_append "Bearer " rest).
  exact (f_equal Some (substring_from_append "Bearer " rest)).
Qed.

Lemma extractAccessToken_no_bearer (req : Request) :
  no_bearer req ->
  extractAccessToken req = truthy_value (get (headers req) alternate_header).
Proof.
  intros Hno. unfold extractAccessToken, alternate_header.
  destruct (truthy_value (get (headers req) "authorization")) as [a|] eqn:Ha;
    [|reflexivity].
  destruct (startsWith a "Bearer ") eqn:Hp; [|reflexivity].
  apply truthy_value_Some in Ha as [Ha _].
  apply startsWith_inv in Hp as [rest ->].
  now elim (Hno rest).
Qed.

(** ** Runs of [POST /upload] *)

Lemma upload_run_no_token (w : World) (req : Request) :
  truthy_value (extractAccessToken req) = None ->
  run (upload req) w =
    (Returned
       (mkResponse 401
          (envelope (Str "Invalid Credentials")
             (Arr [detail "No access token provided" "global" "authError"
                     "Authorization" "header"]))),
     (preamble req ++ [ConsoleError [LText "Token não encontrado nos headers"]])%list).
Proof.
  intros Htok. unfold_handler. now rewrite Htok.
Qed.

Lemma upload_run_no_filePath (w : World) (req : Request) (accessToken : string) :
  truthy_value (extractAccessToken req) = Some accessToken ->
  truthy_value (get (body req) "filePath") = None ->
  run (upload req) w =
    (Returned
       (mkResponse 400
          (envelope (Str "Bad Request")
             (Arr [detail "filePath is required" "global" "required"
                     "filePath" "parameter"]))),
     (preamble req ++
      [ConsoleLog [LText "Token encontrado:";
                   LText (substring accessToken 0 20 ++ "...")]])%list).
Proof.
  intros Htok Hpath. unfold_handler. now rewrite Htok, Hpath.
Qed.

Lemma upload_run_not_found (w : World) (req : Request) (accessToken filePath : string) :
  truthy_value (extractAccessToken req) = Some accessToken ->
  truthy_value (get (body req) "filePath") = Some filePath ->
  fs_existsSync w filePath = false ->
  run (upload req) w =
    (Returned
       (mkResponse 404
          (envelope (Str "File Not Found")
             (Arr [detail ("File not found: " ++ filePath) "global" "notFound"
                     "filePath" "parameter"]))),
     (preamble req ++
      [ConsoleLog [LText "Token encontrado:";
                   LText (substring accessToken 0 20 ++ "...")];
       ConsoleLog [LText ("Tentando fazer upload do arquivo: " ++ filePath)];
       FsExistsSync filePath])%list).
Proof.
  intros Htok Hpath Hfs. unfold_handler. now rewrite Htok, Hpath, Hfs.
Qed.

Lemma upload_run_created (w : World) (req : Request) (accessToken filePath : string)
      (data : Obj Val) :
  passes_checks w req accessToken filePath ->
  drive_files_create w (drive_with accessToken) (upload_params w req filePath)
    = Resolved data ->
  run (upload req) w =
    (Returned
       (mkResponse 200
          (Object [("file",
                    Object [("id", prop data "id");
                            ("name", prop data "name");
                            ("webViewLink", prop data "webViewLink");
                            ("webContentLink", prop data "webContentLink");
                            ("mimeType", prop data "mimeType");
                            ("size", prop data "size")])])),
     (trace_to_create w req accessToken filePath ++
      [ConsoleLog [LText "Upload concluído com sucesso!"];
       ConsoleLog [LText "Resposta:"; LData data]])%list).
Proof.
  intros (Htok & Hpath & Hfs) Hcall. revert Hcall. unfold_handler. intros Hcall.
  run_with Htok. run_with Hpath. run_with Hfs. now run_with Hcall.
Qed.

Lemma upload_run_rejected (w : World) (req : Request) (accessToken filePath : string)
      (error : JsError) :
  passes_checks w req accessToken filePath ->
  drive_files_create w (drive_with accessToken) (upload_params w req filePath)
    = Rejected error ->
  run (upload req) w = upload_catch error w (trace_to_create w req accessToken filePath).
Proof.
  intros (Htok & Hpath & Hfs) Hcall. revert Hcall. unfold_handler. intros Hcall.
  run_with Htok. run_with Hpath. run_with Hfs. now run_with Hcall.
Qed.

Lemma upload_cases (w : World) (req : Request) :
  truthy_value (extractAccessToken req) = None \/
  (exists accessToken,
      truthy_value (extractAccessToken req) = Some accessToken /\
      truthy_value (get (body req) "filePath") = None) \/
  (exists accessToken filePath,
      truthy_value (extractAccessToken req) = Some accessToken /\
      truthy_value (get (body req) "filePath") = Some filePath /\
      fs_existsSync w filePath = false) \/
  (exists accessToken filePath, passes_checks w req accessToken filePath).
Proof.
  unfold passes_checks.
  destruct (truthy_value (extractAccessToken req)) as [tok|]; [|now left].
  destruct (truthy_value (get (body req) "filePath")) as [path|];
    [|right; left; now exists tok].
  destruct (fs_existsSync w path) eqn:Hfs.
  - right; right; right. now exists tok, path.
  - right; right; left. now exists tok, path.
Qed.

Lemma upload_catch_trace (error : JsError) (w : World) (t : list Event) :
  snd (upload_catch error w t)
    = (t ++ [ConsoleError [LText "Erro durante o upload:"; LError error]])%list.
Proof.
  unfold upload_catch. unfold_handler.
  destruct (structured error) as [[response googleError]|];
    [destruct (code_is googleError 401)|]; reflexivity.
Qed.

(** The create-object call happens once, after the three checks passed, and
    with the client and the parameters built from the request. *)
Lemma upload_create_call_inv (w : World) (req : Request)
      (drive : DriveClient) (params : CreateParams) :
  In (DriveFilesCreate drive params) (upload_trace w req) ->
  exists accessToken filePath,
    passes_checks w req accessToken filePath /\
    drive = drive_with accessToken /\ params = upload_params w req filePath.
Proof.
  unfold upload_trace.
  destruct (upload_cases w req)
    as [Htok|[(tok & Htok & Hpath)|[(tok & path & Htok & Hpath & Hfs)|(tok & path & Hpass)]]].
  - rewrite (upload_run_no_token w req Htok). simpl. intuition discriminate.
  - rewrite (upload_run_no_filePath w req tok Htok Hpath). simpl. intuition discriminate.
  - rewrite (upload_run_not_found w req tok path Htok Hpath Hfs). simpl. intuition discriminate.
  - intros Hin. exists tok, path. split; [exact Hpass|].
    assert (Hev : In (DriveFilesCreate drive params)
                     (trace_to_create w req tok path) \/
                  exists other, DriveFilesCreate drive params = ConsoleLog other \/
                                DriveFilesCreate drive params = ConsoleError other).
    { destruct (drive_files_create w (drive_with tok) (upload_params w req path))
        as [data|error] eqn:Hcall.
      - rewrite (upload_run_created w req tok path data Hpass Hcall) in Hin.
        apply in_app_or in Hin as [Hin|Hin]; [now left|].
        simpl in Hin. intuition discriminate.
      - rewrite (upload_run_rejected w req tok path error Hpass Hcall), upload_catch_trace in Hin.
        apply in_app_or in Hin as [Hin|Hin]; [now left|].
        simpl in Hin. intuition discriminate. }
    destruct Hev as [Hev|(other & [Hev|Hev])]; try discriminate.
    unfold trace_to_create in Hev. simpl in Hev.
    repeat (destruct Hev as [Hev|Hev]; [try discriminate|]); [|contradiction].
    now injection Hev as <- <-.
Qed.

Lemma upload_calls_create (w : World) (req : Request) (accessToken filePath : string) :
  passes_checks w req accessToken filePath ->
  In (DriveFilesCreate (drive_with accessToken) (upload_params w req filePath))
     (upload_trace w req).
Proof.
  intros Hpass. unfold upload_trace.
  assert (Hin : In (DriveFilesCreate (drive_with accessToken)
                      (upload_params w req filePath))
                   (trace_to_create w req accessToken filePath)).
  { unfold trace_to_create. apply in_or_app. right. simpl. auto 10. }
  destruct (drive_files_create w (drive_with accessToken) (upload_params w req filePath))
    as [data|error] eqn:Hcall.
  - rewrite (upload_run_created w req accessToken filePath data Hpass Hcall).
    cbv beta iota delta [snd].
    apply in_or_app. now left.
  - rewrite (upload_run_rejected w req accessToken filePath error Hpass Hcall), upload_catch_trace.
    apply in_or_app. now left.
Qed.

Lemma passes_checks_unique (w : World) (req : Request) (t1 t2 p1 p2 : string) :
  passes_checks w req t1 p1 -> passes_checks w req t2 p2 -> t1 = t2 /\ p1 = p2.
Proof.
  intros (H1 & H2 & _) (H3 & H4 & _).
  rewrite H1 in H3. rewrite H2 in H4. now injection H3; injection H4.
Qed.

Lemma upload_result_no_token (w : World) (req : Request) :
  truthy_value (extractAccessToken req) = None ->
  upload_result w req =
    Returned
      (mkResponse 401
         (envelope (Str "Invalid Credentials")
            (Arr [detail "No access token provided" "global" "authError"
                    "Authorization" "header"]))).
Proof.
  intros Htok. unfold upload_result. now rewrite (upload_run_no_token w req Htok).
Qed.

(** ** Runs of [POST /test-auth] *)

Lemma test_auth_run_no_token (w : World) (req : Request) :
  truthy_value (extractAccessToken req) = None ->
  run (test_auth req) w =
    (Returned (mkResponse 401 (Object [("error", Str "No access token provided")])),
     []).
Proof.
  intros Htok. unfold_handler. now rewrite Htok.
Qed.

Lemma test_auth_run_resolved (w : World) (req : Request) (accessToken : string)
      (files : list (Obj Val)) :
  truthy_value (extractAccessToken req) = Some accessToken ->
  drive_files_list w (drive_with accessToken) probe = Resolved files ->
  run (test_auth req) w =
    (Returned
       (mkResponse 200
          (Object [("status", Str "authenticated");
                   ("message", Str "Token is valid");
                   ("testFile",
                    match hd_error files with
                    | Some file => Object file
                    | None => Null
                    end)])),
     [DriveFilesList (drive_with accessToken) probe]).
Proof.
  intros Htok Hcall. revert Hcall. unfold probe. unfold_handler. intros Hcall.
  run_with Htok. run_with Hcall. now destruct files.
Qed.

Lemma test_auth_run_rejected (w : World) (req : Request) (accessToken : string)
      (error : JsError) :
  truthy_value (extractAccessToken req) = Some accessToken ->
  drive_files_list w (drive_with accessToken) probe = Rejected error ->
  run (test_auth req) w =
    (Returned
       (mkResponse 401
          (Object [("error", Str "Invalid token");
                   ("details", of_option (error_message error))])),
     [DriveFilesList (drive_with accessToken) probe]).
Proof.
  intros Htok Hcall. revert Hcall. unfold probe. unfold_handler. intros Hcall.
  run_with Htok. now run_with Hcall.
Qed.

Lemma test_auth_list_call_inv (w : World) (req : Request)
      (drive : DriveClient) (params : ListParams) :
  In (DriveFilesList drive params) (test_auth_trace w req) ->
  exists accessToken,
    truthy_value (extractAccessToken req) = Some accessToken /\
    drive = drive_with accessToken /\ params = probe.
Proof.
  unfold test_auth_trace.
  destruct (truthy_value (extractAccessToken req)) as [tok|] eqn:Htok.
  - intros Hin. exists tok. split; [reflexivity|].
    destruct (drive_files_list w (drive_with tok) probe) as [files|error] eqn:Hcall.
    + rewrite (test_auth_run_resolved w req tok files Htok Hcall) in Hin.
      destruct Hin as [Hin|[]]. now injection Hin as <- <-.
    + rewrite (test_auth_run_rejected w req tok error Htok Hcall) in Hin.
      destruct Hin as [Hin|[]]. now injection Hin as <- <-.
  - rewrite (test_auth_run_no_token w req Htok). intros [].
Qed.

(** * The claims *)

(** ** Credential extraction *)

(** C1, as stated, fails: a request whose only credential header is an
    alternate header with an empty value has that header present, so the
    specified extraction returns its raw value, the empty string; the code
    returns [null]. *)
Lemma extractAccessToken_empty_alternate_header :
  let req := mkRequest [(alternate_header, EmptyString)] [] in
  get (headers req) "authorization" = None /\
  get (headers req) alternate_header = Some EmptyString /\
  extractAccessToken_spec req = Some EmptyString /\
  extractAccessToken req = None /\
  extractAccessToken req <> extractAccessToken_spec req.
Proof.
  repeat split; discriminate.
Qed.

(** C1 (amended): for every set of request headers, the extraction returns
    the remainder after the prefix [Bearer ] of the Authorization header
    when that header starts with the prefix, whatever the remainder is;
    otherwise the raw value of the alternate header when that header is
    present and not empty; otherwise nothing. *)
Theorem extractAccessToken_first_match (req : Request) :
  (forall rest,
      get (headers req) "authorization" = Some ("Bearer " ++ rest) ->
      extractAccessToken req = Some rest) /\
  (no_bearer req ->
   forall value,
     get (headers req) alternate_header = Some value -> value <> EmptyString ->
     extractAccessToken req = Some value) /\
  (no_bearer req ->
   get (headers req) alternate_header = None \/
   get (headers req) alternate_header = Some EmptyString ->
   extractAccessToken req = None).
Proof.
  split; [|split].
  - intros rest. apply extractAccessToken_bearer.
  - intros Hno value Hget Hne.
    rewrite (extractAccessToken_no_bearer req Hno).
    now apply truthy_value_Some.
  - intros Hno Halt.
    rewrite (extractAccessToken_no_bearer req Hno).
    now apply truthy_value_None.
Qed.

(** A bearer header, an alternate header behind a Basic one, and a prefix in
    the wrong case. *)
Lemma extractAccessToken_first_match_witness :
  extractAccessToken (mkRequest (Example.bearer Example.token) []) = Some Example.token /\
  extractAccessToken
    (mkRequest [("authorization", "Basic dXNlcjpwYXNz"); (alternate_header, "ya29.alt")] [])
    = Some "ya29.alt" /\
  extractAccessToken (mkRequest [("authorization", "bearer lower-case")] []) = None.
Proof.
  split; [|split].
  - apply (proj1 (extractAccessToken_first_match
                    (mkRequest (Example.bearer Example.token) []))).
    reflexivity.
  - apply (proj1 (proj2 (extractAccessToken_first_match
                           (mkRequest [("authorization", "Basic dXNlcjpwYXNz");
                                       (alternate_header, "ya29.alt")] [])))).
    + intros rest H. simpl in H. discriminate.
    + reflexivity.
    + discriminate.
  - apply (proj2 (proj2 (extractAccessToken_first_match
                           (mkRequest [("authorization", "bearer lower-case")] [])))).
    + intros rest H. simpl in H. discriminate.
    + now left.
Defined.

(** C10: a request whose Authorization header is exactly [Bearer ] and that
    carries no alternate header yields the empty string as its token, and
    both handlers answer it with the 401 of a request that supplied no
    credential at all. *)
Theorem empty_bearer_token_is_absent (w : World) (req : Request) :
  get (headers req) "authorization" = Some "Bearer " ->
  get (headers req) alternate_header = None ->
  extractAccessToken req = Some EmptyString /\
  upload_result w req =
    Returned
      (mkResponse 401
         (envelope (Str "Invalid Credentials")
            (Arr [detail "No access token provided" "global" "authError"
                    "Authorization" "header"]))) /\
  test_auth_result w req =
    Returned (mkResponse 401 (Object [("error", Str "No access token provided")])) /\
  (forall bare,
      get (headers bare) "authorization" = None ->
      get (headers bare) alternate_header = None ->
      extractAccessToken bare = None /\
      upload_result w bare = upload_result w req /\
      test_auth_result w bare = test_auth_result w req).
Proof.
  intros Hauth _.
  assert (Htok : extractAccessToken req = Some EmptyString).
  { apply extractAccessToken_bearer. exact Hauth. }
  assert (Hfalsy : truthy_value (extractAccessToken req) = None) by now rewrite Htok.
  split; [exact Htok|].
  split; [now apply upload_result_no_token|].
  split.
  - unfold test_auth_result. now rewrite (test_auth_run_no_token w req Hfalsy).
  - intros bare Hb Halt.
    assert (Hnone : extractAccessToken bare = None).
    { unfold extractAccessToken. fold alternate_header. now rewrite Hb, Halt. }
    assert (Hbare : truthy_value (extractAccessToken bare) = None) by now rewrite Hnone.
    split; [exact Hnone|].
    split.
    + now rewrite (upload_result_no_token w bare Hbare),
        (upload_result_no_token w req Hfalsy).
    + unfold test_auth_result.
      now rewrite (test_auth_run_no_token w bare Hbare),
        (test_auth_run_no_token w req Hfalsy).
Qed.

(** The empty bearer token on an upload of an existing file. *)
Lemma empty_bearer_token_is_absent_witness :
  let req := mkRequest [("authorization", "Bearer ")] [("filePath", "/data/clip.mp4")] in
  extractAccessToken req = Some EmptyString /\
  upload_result Example.accepting req =
    Returned
      (mkResponse 401
         (envelope (Str "Invalid Credentials")
            (Arr [detail "No access token provided" "global" "authError"
                    "Authorization" "header"]))).
Proof.
  pose proof (empty_bearer_token_is_absent Example.accepting
                (mkRequest [("authorization", "Bearer ")]
                           [("filePath", "/data/clip.mp4")])
                eq_refl eq_refl) as (Htok & Hup & _).
  split; [exact Htok|exact Hup].
Defined.

(** ** The auth check *)

(** C8: on POST /test-auth, a request with no extracted token gets 401 with
    a generic error; when the listing call (page size 1) of the request
    succeeds the response is 200 with status authenticated, a message and, as
    testFile, the first listed object or null; when that call fails, in any
    way, the response is 401 with error Invalid token and the message of the
    failure as details.  A request with a token that is not empty does issue
    the call. *)
Theorem test_auth_contract (w : World) (req : Request) :
  (extractAccessToken req = None ->
   test_auth_result w req =
     Returned (mkResponse 401 (Object [("error", Str "No access token provided")]))) /\
  (forall drive params files,
      In (DriveFilesList drive params) (test_auth_trace w req) ->
      drive_files_list w drive params = Resolved files ->
      pageSize params = 1%N /\
      test_auth_result w req =
        Returned
          (mkResponse 200
             (Object [("status", Str "authenticated");
                      ("message", Str "Token is valid");
                      ("testFile",
                       match hd_error files with
                       | Some file => Object file
                       | None => Null
                       end)]))) /\
  (forall drive params error,
      In (DriveFilesList drive params) (test_auth_trace w req) ->
      drive_files_list w drive params = Rejected error ->
      test_auth_result w req =
        Returned
          (mkResponse 401
             (Object [("error", Str "Invalid token");
                      ("details", of_option (error_message error))]))) /\
  (forall accessToken,
      extractAccessToken req = Some accessToken -> accessToken <> EmptyString ->
      In (DriveFilesList (drive_with accessToken) probe) (test_auth_trace w req)).
Proof.
  split; [|split; [|split]].
  - intros Hnone.
    assert (Htok : truthy_value (extractAccessToken req) = None) by now rewrite Hnone.
    unfold test_auth_result. now rewrite (test_auth_run_no_token w req Htok).
  - intros drive params files Hin Hcall.
    destruct (test_auth_list_call_inv w req drive params Hin) as (tok & Htok & -> & ->).
    split; [reflexivity|].
    unfold test_auth_result.
    now rewrite (test_auth_run_resolved w req tok files Htok Hcall).
  - intros drive params error Hin Hcall.
    destruct (test_auth_list_call_inv w req drive params Hin) as (tok & Htok & -> & ->).
    unfold test_auth_result.
    now rewrite (test_auth_run_rejected w req tok error Htok Hcall).
  - intros tok Hsome Hne.
    assert (Htok : truthy_value (extractAccessToken req) = Some tok).
    { apply truthy_value_Some. now split. }
    unfold test_auth_trace.
    destruct (drive_files_list w (drive_with tok) probe) as [files|error] eqn:Hcall.
    + rewrite (test_auth_run_resolved w req tok files Htok Hcall). now left.
    + rewrite (test_auth_run_rejected w req tok error Htok Hcall). now left.
Qed.

(** No credential, a token the provider accepts, and one it rejects. *)
Lemma test_auth_contract_witness :
  let req := mkRequest (Example.bearer Example.token) [] in
  let failure := mkJsError (Some "Invalid Credentials") None in
  test_auth_result Example.accepting (mkRequest [] []) =
    Returned (mkResponse 401 (Object [("error", Str "No access token provided")])) /\
  test_auth_result Example.accepting req =
    Returned
      (mkResponse 200
         (Object [("status", Str "authenticated");
                  ("message", Str "Token is valid");
                  ("testFile", Object [("id", Str "1AbC"); ("name", Str "clip.mp4")])])) /\
  test_auth_result (Example.rejecting failure) req =
    Returned
      (mkResponse 401
         (Object [("error", Str "Invalid token");
                  ("details", Str "Invalid Credentials")])).
Proof.
  split; [|split].
  - apply (proj1 (test_auth_contract Example.accepting (mkRequest [] []))).
    reflexivity.
  - apply (proj1 (proj2 (test_auth_contract Example.accepting
                           (mkRequest (Example.bearer Example.token) [])))
             (drive_with Example.token) probe Example.listed).
    + vm_compute. now left.
    + reflexivity.
  - apply (proj1 (proj2 (proj2 (test_auth_contract
                                  (Example.rejecting
                                     (mkJsError (Some "Invalid Credentials") None))
                                  (mkRequest (Example.bearer Example.token) []))))
             (drive_with Example.token) probe
             (mkJsError (Some "Invalid Credentials") None)).
    + vm_compute. now left.
    + reflexivity.
Defined.

(** ** The upload handler *)

Section UploadFacts.

Variable w : World.
Variable req : Request.

Lemma upload_result_rejected (drive : DriveClient) (params : CreateParams)
      (error : JsError) :
  In (DriveFilesCreate drive params) (upload_trace w req) ->
  drive_files_create w drive params = Rejected error ->
  exists t, upload_result w req = fst (upload_catch error w t).
Proof.
  intros Hin Hcall.
  destruct (upload_create_call_inv w req drive params Hin)
    as (tok & path & Hpass & -> & ->).
  exists (trace_to_create w req tok path). unfold upload_result.
  now rewrite (upload_run_rejected w req tok path error Hpass Hcall).
Qed.

Lemma upload_result_created (drive : DriveClient) (params : CreateParams)
      (data : Obj Val) :
  In (DriveFilesCreate drive params) (upload_trace w req) ->
  drive_files_create w drive params = Resolved data ->
  upload_result w req =
    Returned
      (mkResponse 200
         (Object [("file",
                   Object [("id", prop data "id");
                           ("name", prop data "name");
                           ("webViewLink", prop data "webViewLink");
                           ("webContentLink", prop data "webContentLink");
                           ("mimeType", prop data "mimeType");
                           ("size", prop data "size")])])).
Proof.
  intros Hin Hcall.
  destruct (upload_create_call_inv w req drive params Hin)
    as (tok & path & Hpass & -> & ->).
  unfold upload_result.
  now rewrite (upload_run_created w req tok path data Hpass Hcall).
Qed.

End UploadFacts.

Lemma structured_payload (error : JsError) (response : ErrorResponse)
      (data : ErrorData) (googleError : GoogleError) :
  error_response error = Some response ->
  response_data response = Some data ->
  data_error data = Some googleError ->
  structured error = Some (response, googleError).
Proof.
  intros H1 H2 H3. unfold structured. now rewrite H1, H2, H3.
Qed.

Lemma unstructured_no_payload (error : JsError) :
  unstructured error -> structured error = None.
Proof.
  unfold structured.
  intros [H|[(r & H1 & H2)|(r & d & H1 & H2 & H3)]].
  - now rewrite H.
  - now rewrite H1, H2.
  - now rewrite H1, H2, H3.
Qed.

Lemma code_is_iff (googleError : GoogleError) (n : N) :
  code_is googleError n = true <-> code googleError = Some n.
Proof.
  unfold code_is. destruct (code googleError) as [c|]; [|split; discriminate].
  rewrite N.eqb_eq. split; [now intros ->|now intros [= ->]].
Qed.

(** C2, as stated, fails: the request below carries a token and a filePath
    field, and no file has the empty path, so the third check as specified
    answers 404; the handler answers 400. *)
Lemma upload_empty_filePath_is_bad_request :
  let req := mkRequest (Example.bearer Example.token) [("filePath", EmptyString)] in
  extractAccessToken req = Some Example.token /\
  get (body req) "filePath" = Some EmptyString /\
  fs_existsSync Example.accepting EmptyString = false /\
  upload_result Example.accepting req =
    Returned
      (mkResponse 400
         (envelope (Str "Bad Request")
            (Arr [detail "filePath is required" "global" "required"
                    "filePath" "parameter"]))) /\
  ~ upload_checks_spec Example.accepting req.
Proof.
  repeat split.
  intros (_ & _ & H).
  destruct (H Example.token EmptyString eq_refl eq_refl eq_refl) as [[details Hd] _].
  vm_compute in Hd. discriminate.
Qed.

(** C2 (amended): the upload handler checks in order and answers the first
    failure: a token that is absent or empty gets 401 Invalid Credentials;
    else a filePath that is missing or empty gets 400 Bad Request; else a
    filePath that does not exist on the filesystem gets 404 File Not Found
    with a detail naming the path, and in that case no create-object call
    is made. *)
Theorem upload_checks_in_order (w : World) (req : Request) :
  (extractAccessToken req = None \/ extractAccessToken req = Some EmptyString ->
   upload_result w req =
     Returned
       (mkResponse 401
          (envelope (Str "Invalid Credentials")
             (Arr [detail "No access token provided" "global" "authError"
                     "Authorization" "header"])))) /\
  (forall accessToken,
      extractAccessToken req = Some accessToken -> accessToken <> EmptyString ->
      get (body req) "filePath" = None \/ get (body req) "filePath" = Some EmptyString ->
      upload_result w req =
        Returned
          (mkResponse 400
             (envelope (Str "Bad Request")
                (Arr [detail "filePath is required" "global" "required"
                        "filePath" "parameter"])))) /\
  (forall accessToken filePath,
      extractAccessToken req = Some accessToken -> accessToken <> EmptyString ->
      get (body req) "filePath" = Some filePath -> filePath <> EmptyString ->
      fs_existsSync w filePath = false ->
      upload_result w req =
        Returned
          (mkResponse 404
             (envelope (Str "File Not Found")
                (Arr [detail ("File not found: " ++ filePath) "global" "notFound"
                        "filePath" "parameter"]))) /\
      forall drive params, ~ In (DriveFilesCreate drive params) (upload_trace w req)).
Proof.
  split; [|split].
  - intros Hnone. apply upload_result_no_token. now apply truthy_value_None.
  - intros tok Hsome Hne Hpath.
    assert (Htok : truthy_value (extractAccessToken req) = Some tok)
      by (apply truthy_value_Some; now split).
    apply truthy_value_None in Hpath.
    unfold upload_result. now rewrite (upload_run_no_filePath w req tok Htok Hpath).
  - intros tok path Hsome Hne Hget Hpne Hfs.
    assert (Htok : truthy_value (extractAccessToken req) = Some tok)
      by (apply truthy_value_Some; now split).
    assert (Hpath : truthy_value (get (body req) "filePath") = Some path)
      by (apply truthy_value_Some; now split).
    split.
    + unfold upload_result.
      now rewrite (upload_run_not_found w req tok path Htok Hpath Hfs).
    + intros drive params Hin.
      destruct (upload_create_call_inv w req drive params Hin)
        as (tok' & path' & (_ & Hpath' & Hfs') & _).
      rewrite Hpath in Hpath'. injection Hpath' as <-.
      rewrite Hfs in Hfs'. discriminate.
Qed.

(** A valid token and a path that is not on the disk. *)
Lemma upload_checks_in_order_witness :
  let req :=
    mkRequest (Example.bearer Example.token) [("filePath", "/missing/file.mp4")] in
  upload_result Example.accepting req =
    Returned
      (mkResponse 404
         (envelope (Str "File Not Found")
            (Arr [detail "File not found: /missing/file.mp4" "global" "notFound"
                    "filePath" "parameter"]))) /\
  forall drive params,
    ~ In (DriveFilesCreate drive params) (upload_trace Example.accepting req).
Proof.
  apply (proj2 (proj2 (upload_checks_in_order Example.accepting
                         (mkRequest (Example.bearer Example.token)
                                    [("filePath", "/missing/file.mp4")])))
           Example.token "/missing/file.mp4").
  - reflexivity.
  - discriminate.
  - reflexivity.
  - discriminate.
  - reflexivity.
Defined.

(** C3: when the create-object call of an upload fails with a structured
    payload whose code is 401, the relay answers 401 Invalid Credentials, and
    the details are the error list of the provider when it sent one, else a
    single synthesized detail about an expired or invalid token. *)
Theorem upload_provider_unauthorized (w : World) (req : Request)
        (drive : DriveClient) (params : CreateParams) (error : JsError)
        (response : ErrorResponse) (data : ErrorData) (googleError : GoogleError) :
  In (DriveFilesCreate drive params) (upload_trace w req) ->
  drive_files_create w drive params = Rejected error ->
  error_response error = Some response ->
  response_data response = Some data ->
  data_error data = Some googleError ->
  code googleError = Some 401%N ->
  upload_result w req =
    Returned
      (mkResponse 401
         (envelope (Str "Invalid Credentials")
            (Arr match errors googleError with
                 | Some list => list
                 | None =>
                     [detail "The access token is expired or invalid" "global"
                        "authError" "Authorization" "header"]
                 end))).
Proof.
  intros Hin Hcall Hr Hd Hg Hcode.
  destruct (upload_result_rejected w req drive params error Hin Hcall) as [t ->].
  unfold upload_catch. unfold_handler.
  rewrite (structured_payload error response data googleError Hr Hd Hg).
  now rewrite (proj2 (code_is_iff googleError 401) Hcode).
Qed.

(** The provider rejects the create-object call with code 401 and its own
    error list. *)
Lemma upload_provider_unauthorized_witness :
  upload_result
    (Example.rejecting (Example.payload_error 401 Example.unauthorized_payload))
    Example.clip_request =
    Returned
      (mkResponse 401
         (envelope (Str "Invalid Credentials")
            (Arr [Object [("domain", Str "global"); ("reason", Str "authError");
                          ("message", Str "Invalid Credentials")]]))).
Proof.
  apply (upload_provider_unauthorized
           (Example.rejecting (Example.payload_error 401 Example.unauthorized_payload))
           Example.clip_request
           (drive_with Example.token)
           (upload_params
              (Example.rejecting
                 (Example.payload_error 401 Example.unauthorized_payload))
              Example.clip_request "/data/clip.mp4")
           (Example.payload_error 401 Example.unauthorized_payload)
           (mkErrorResponse (Some 401%N)
              (Some (mkErrorData (Some Example.unauthorized_payload))))
           (mkErrorData (Some Example.unauthorized_payload))
           Example.unauthorized_payload).
  - vm_compute. tauto.
  - reflexivity.
  - reflexivity.
  - reflexivity.
  - reflexivity.
  - reflexivity.
Defined.

(** X17: when the create-object call of an upload rejects with an error that
    carries no payload of the provider, a network failure for one, the relay
    answers 500 Internal Server Error with a single detail, whose message is
    the message of the error or, when that is absent or empty, a generic
    one. *)
Theorem upload_unstructured_error (w : World) (req : Request)
        (drive : DriveClient) (params : CreateParams) (error : JsError) :
  In (DriveFilesCreate drive params) (upload_trace w req) ->
  drive_files_create w drive params = Rejected error ->
  unstructured error ->
  exists message,
    upload_result w req =
      Returned
        (mkResponse 500
           (envelope (Str "Internal Server Error")
              (Arr [Object [("message", Str message); ("domain", Str "global");
                            ("reason", Str "internalError")]]))) /\
    ((error_message error = Some message /\ message <> EmptyString) \/
     ((error_message error = None \/ error_message error = Some EmptyString) /\
      message = "An unexpected error occurred")).
Proof.
  intros Hin Hcall Hun.
  destruct (upload_result_rejected w req drive params error Hin Hcall) as [t ->].
  exists (or_else (error_message error) "An unexpected error occurred").
  split.
  - unfold upload_catch. unfold_handler.
    now rewrite (unstructured_no_payload error Hun).
  - destruct (truthy_value (error_message error)) as [m|] eqn:Hm.
    + left. apply truthy_value_Some in Hm as [Hm Hne].
      rewrite Hm, (or_else_truthy m _ Hne). now split.
    + right. apply truthy_value_None in Hm.
      now rewrite (or_else_falsy (error_message error) _ Hm).
Qed.

(** The network is down when the call is made. *)
Lemma upload_unstructured_error_witness :
  exists message,
    upload_result (Example.rejecting Example.network_error) Example.clip_request =
      Returned
        (mkResponse 500
           (envelope (Str "Internal Server Error")
              (Arr [Object [("message", Str message); ("domain", Str "global");
                            ("reason", Str "internalError")]]))) /\
    ((error_message Example.network_error = Some message /\ message <> EmptyString) \/
     ((error_message Example.network_error = None \/
       error_message Example.network_error = Some EmptyString) /\
      message = "An unexpected error occurred")).
Proof.
  apply (upload_unstructured_error
           (Example.rejecting Example.network_error) Example.clip_request
           (drive_with Example.token)
           (upload_params (Example.rejecting Example.network_error)
              Example.clip_request "/data/clip.mp4")
           Example.network_error).
  - vm_compute. tauto.
  - reflexivity.
  - now left.
Defined.

Lemma code_is_not (googleError : GoogleError) (n : N) :
  code googleError <> Some n -> code_is googleError n = false.
Proof.
  intros Hne. destruct (code_is googleError n) eqn:H; [|reflexivity].
  now apply code_is_iff in H.
Qed.

Lemma num_or_else_cases (n : option N) (d : N) :
  (n = Some (num_or_else n d) /\ num_or_else n d <> 0%N) \/
  ((n = None \/ n = Some 0%N) /\ num_or_else n d = d).
Proof.
  unfold num_or_else. destruct n as [k|]; [|right; now split; [left|]].
  destruct (N.eqb_spec k 0) as [->|Hne].
  - right. now split; [right|].
  - left. now split.
Qed.

Lemma or_else_cases (v : option string) (d : string) :
  (v = Some (or_else v d) /\ or_else v d <> EmptyString) \/
  ((v = None \/ v = Some EmptyString) /\ or_else v d = d).
Proof.
  destruct (truthy_value v) as [s|] eqn:Hv.
  - left. apply truthy_value_Some in Hv as [-> Hne].
    rewrite (or_else_truthy s d Hne). now split.
  - right. apply truthy_value_None in Hv.
    split; [exact Hv|now apply or_else_falsy].
Qed.

(** C4, as stated, fails: the provider below answers 403 with a payload
    whose message is present and empty; the relay sends the generic message
    where the specification has the message of the provider. *)
Lemma upload_empty_provider_message :
  let response :=
    mkErrorResponse (Some 403%N) (Some (mkErrorData (Some Example.silent_payload))) in
  let error := Example.payload_error 403 Example.silent_payload in
  let params :=
    mkCreateParams (mkFileMetadata "clip.mp4" "video/mp4" None)
      (mkMedia "video/mp4" (ReadStreamOf "/data/clip.mp4"))
      "id, name, webViewLink, webContentLink, mimeType, size" in
  In (DriveFilesCreate (mkDriveClient "v3" Example.token) params)
     (upload_trace (Example.rejecting error) Example.clip_request) /\
  drive_files_create (Example.rejecting error) (mkDriveClient "v3" Example.token) params
    = Rejected error /\
  error_response error = Some response /\
  code Example.silent_payload = Some 403%N /\
  g_message Example.silent_payload = Some EmptyString /\
  upload_result (Example.rejecting error) Example.clip_request =
    Returned
      (mkResponse 403
         (envelope (Str "Google Drive API Error")
            (Arr [Object [("domain", Str "usageLimits");
                          ("reason", Str "rateLimitExceeded")]]))) /\
  upload_result (Example.rejecting error) Example.clip_request
    <> Returned (relay_error_spec response Example.silent_payload).
Proof.
  cbv zeta. split; [vm_compute; tauto|].
  repeat split. vm_compute. discriminate.
Qed.

(** C4 (amended): when the create-object call of an upload fails with a
    structured payload whose code is not 401, the status of the relay is the
    HTTP status of the provider, or 500 when that is absent or zero; the
    error message is the message of the provider, or a generic one when that
    is absent or empty; the details are the error list of the provider, or
    the empty list when it sent none. *)
Theorem upload_provider_error (w : World) (req : Request)
        (drive : DriveClient) (params : CreateParams) (error : JsError)
        (response : ErrorResponse) (data : ErrorData) (googleError : GoogleError) :
  In (DriveFilesCreate drive params) (upload_trace w req) ->
  drive_files_create w drive params = Rejected error ->
  error_response error = Some response ->
  response_data response = Some data ->
  data_error data = Some googleError ->
  code googleError <> Some 401%N ->
  exists status message,
    upload_result w req =
      Returned
        (mkResponse status
           (envelope (Str message)
              (Arr match errors googleError with
                   | Some list => list
                   | None => []
                   end))) /\
    ((response_status response = Some status /\ status <> 0%N) \/
     ((response_status response = None \/ response_status response = Some 0%N) /\
      status = 500%N)) /\
    ((g_message googleError = Some message /\ message <> EmptyString) \/
     ((g_message googleError = None \/ g_message googleError = Some EmptyString) /\
      message = "Google Drive API Error")).
Proof.
  intros Hin Hcall Hr Hd Hg Hcode.
  destruct (upload_result_rejected w req drive params error Hin Hcall) as [t ->].
  exists (num_or_else (response_status response) 500),
         (or_else (g_message googleError) "Google Drive API Error").
  split; [|split].
  - unfold upload_catch. unfold_handler.
    rewrite (structured_payload error response data googleError Hr Hd Hg).
    now rewrite (code_is_not googleError 401 Hcode).
  - apply num_or_else_cases.
  - apply or_else_cases.
Qed.

(** The provider rejects the create-object call with status 403 and an empty
    message. *)
Lemma upload_provider_error_witness :
  exists status message,
    upload_result
      (Example.rejecting (Example.payload_error 403 Example.silent_payload))
      Example.clip_request =
      Returned
        (mkResponse status
           (envelope (Str message)
              (Arr match errors Example.silent_payload with
                   | Some list => list
                   | None => []
                   end))) /\
    ((Some 403%N = Some status /\ status <> 0%N) \/
     ((Some 403%N = None \/ Some 403%N = Some 0%N) /\ status = 500%N)) /\
    ((g_message Example.silent_payload = Some message /\ message <> EmptyString) \/
     ((g_message Example.silent_payload = None \/
       g_message Example.silent_payload = Some EmptyString) /\
      message = "Google Drive API Error")).
Proof.
  apply (upload_provider_error
           (Example.rejecting (Example.payload_error 403 Example.silent_payload))
           Example.clip_request
           (drive_with Example.token)
           (upload_params
              (Example.rejecting (Example.payload_error 403 Example.silent_payload))
              Example.clip_request "/data/clip.mp4")
           (Example.payload_error 403 Example.silent_payload)
           (mkErrorResponse (Some 403%N)
              (Some (mkErrorData (Some Example.silent_payload))))
           (mkErrorData (Some Example.silent_payload))
           Example.silent_payload).
  - vm_compute. tauto.
  - reflexivity.
  - reflexivity.
  - reflexivity.
  - reflexivity.
  - discriminate.
Defined.

(** ** Destination metadata *)

Lemma fileMetadata_name (fileName mime folderId : option string) (base : string) :
  name (fileMetadata fileName mime folderId base) = or_else fileName base.
Proof.
  unfold fileMetadata.
  destruct (truthy_value folderId) as [f|]; [destruct (f =? "root")|]; reflexivity.
Qed.

Lemma fileMetadata_mimeType (fileName mime folderId : option string) (base : string) :
  mimeType (fileMetadata fileName mime folderId base) = or_else mime "video/mp4".
Proof.
  unfold fileMetadata.
  destruct (truthy_value folderId) as [f|]; [destruct (f =? "root")|]; reflexivity.
Qed.

Lemma fileMetadata_parents (fileName mime folderId : option string) (base : string) :
  (forall f, folderId = Some f -> f <> EmptyString -> f <> "root" ->
             parents (fileMetadata fileName mime folderId base) = Some [f]) /\
  (folderId = None \/ folderId = Some EmptyString \/ folderId = Some "root" ->
   parents (fileMetadata fileName mime folderId base) = None).
Proof.
  unfold fileMetadata. split.
  - intros f -> Hne Hroot.
    rewrite (proj2 (truthy_value_Some (Some f) f) (conj eq_refl Hne)).
    now rewrite (proj2 (String.eqb_neq f "root") Hroot).
  - intros [ -> | [ -> | -> ] ]; reflexivity.
Qed.

(** C6, as stated, fails: the request below supplies a fileName, the empty
    string, and passes the checks; the metadata sent to the provider has the
    basename of filePath as its name. *)
Lemma upload_empty_fileName_uses_basename :
  let req :=
    mkRequest (Example.bearer Example.token)
      [("filePath", "/data/clip.mp4"); ("fileName", EmptyString)] in
  let sent := mkFileMetadata "clip.mp4" "video/mp4" None in
  In (DriveFilesCreate (mkDriveClient "v3" Example.token)
        (mkCreateParams sent (mkMedia "video/mp4" (ReadStreamOf "/data/clip.mp4"))
           "id, name, webViewLink, webContentLink, mimeType, size"))
     (upload_trace Example.accepting req) /\
  get (body req) "fileName" = Some EmptyString /\
  fileMetadata_spec (get (body req) "fileName") (get (body req) "mimeType")
    (get (body req) "folderId") (path_basename Example.accepting "/data/clip.mp4")
    = mkFileMetadata EmptyString "video/mp4" None /\
  sent <> fileMetadata_spec (get (body req) "fileName") (get (body req) "mimeType")
            (get (body req) "folderId")
            (path_basename Example.accepting "/data/clip.mp4").
Proof.
  cbv zeta. split; [vm_compute; tauto|].
  repeat split. vm_compute. discriminate.
Qed.

(** C6 (amended): a request that passes the three checks makes exactly one
    create-object call, and the metadata it sends has as name the fileName
    when one is supplied and not empty, else the basename of filePath; as
    content type the mimeType when one is supplied and not empty, else
    video/mp4; and as parents the single folderId when one is supplied, not
    empty and not the sentinel root; otherwise no parents field is set. *)
Theorem upload_metadata_sent (w : World) (req : Request)
        (accessToken filePath : string) :
  passes_checks w req accessToken filePath ->
  exists params,
    In (DriveFilesCreate (drive_with accessToken) params) (upload_trace w req) /\
    (forall drive' params',
        In (DriveFilesCreate drive' params') (upload_trace w req) ->
        drive' = drive_with accessToken /\ params' = params) /\
    (forall fileName,
        get (body req) "fileName" = Some fileName -> fileName <> EmptyString ->
        name (requestBody params) = fileName) /\
    (get (body req) "fileName" = None \/ get (body req) "fileName" = Some EmptyString ->
     name (requestBody params) = path_basename w filePath) /\
    (forall mime,
        get (body req) "mimeType" = Some mime -> mime <> EmptyString ->
        mimeType (requestBody params) = mime) /\
    (get (body req) "mimeType" = None \/ get (body req) "mimeType" = Some EmptyString ->
     mimeType (requestBody params) = "video/mp4") /\
    (forall folderId,
        get (body req) "folderId" = Some folderId ->
        folderId <> EmptyString -> folderId <> "root" ->
        parents (requestBody params) = Some [folderId]) /\
    (get (body req) "folderId" = None \/ get (body req) "folderId" = Some EmptyString \/
     get (body req) "folderId" = Some "root" ->
     parents (requestBody params) = None).
Proof.
  intros Hpass. exists (upload_params w req filePath).
  split; [now apply upload_calls_create|].
  split.
  { intros drive' params' Hin.
    destruct (upload_create_call_inv w req drive' params' Hin)
      as (tok & path & Hpass' & -> & ->).
    now destruct (passes_checks_unique w req tok accessToken path filePath Hpass' Hpass)
      as [-> ->]. }
  unfold upload_params, upload_metadata. cbn [requestBody].
  rewrite fileMetadata_name, fileMetadata_mimeType.
  repeat split.
  - intros fileName -> Hne. now apply or_else_truthy.
  - apply or_else_falsy.
  - intros mime -> Hne. now apply or_else_truthy.
  - apply or_else_falsy.
  - apply fileMetadata_parents.
  - apply fileMetadata_parents.
Qed.

(** An upload into the root folder, with neither fileName nor mimeType. *)
Lemma upload_metadata_sent_witness :
  exists params,
    In (DriveFilesCreate (drive_with Example.token) params)
       (upload_trace Example.accepting
          (mkRequest (Example.bearer Example.token)
             [("filePath", "/data/clip.mp4"); ("folderId", "root")])) /\
    name (requestBody params) = "clip.mp4" /\
    mimeType (requestBody params) = "video/mp4" /\
    parents (requestBody params) = None.
Proof.
  destruct (upload_metadata_sent Example.accepting
              (mkRequest (Example.bearer Example.token)
                 [("filePath", "/data/clip.mp4"); ("folderId", "root")])
              Example.token "/data/clip.mp4")
    as (params & Hin & _ & _ & Hname & _ & Hmime & _ & Hparents).
  - repeat split.
  - exists params.
    split; [exact Hin|].
    split; [now apply Hname; left|].
    split; [now apply Hmime; left|].
    apply Hparents. now right; right.
Defined.

(** ** Success *)

(** C7: when the create-object call of an upload succeeds, the relay answers
    200 with a body whose only member is file, an object of exactly the six
    fields id, name, webViewLink, webContentLink, mimeType and size, each
    with the value the provider returned for it. *)
Theorem upload_success (w : World) (req : Request)
        (drive : DriveClient) (params : CreateParams) (data : Obj Val) :
  In (DriveFilesCreate drive params) (upload_trace w req) ->
  drive_files_create w drive params = Resolved data ->
  exists file,
    upload_result w req = Returned (mkResponse 200 (Object [("file", Object file)])) /\
    keys file = ["id"; "name"; "webViewLink"; "webContentLink"; "mimeType"; "size"] /\
    forall field, In field (keys file) -> get file field = Some (prop data field).
Proof.
  intros Hin Hcall.
  rewrite (upload_result_created w req drive params data Hin Hcall).
  eexists. split; [reflexivity|]. split; [reflexivity|].
  intros field Hfield. simpl in Hfield.
  repeat (destruct Hfield as [<-|Hfield]; [reflexivity|]).
  contradiction.
Qed.

(** The provider accepts the upload and returns the six fields. *)
Lemma upload_success_witness :
  exists file,
    upload_result Example.accepting Example.clip_request
      = Returned (mkResponse 200 (Object [("file", Object file)])) /\
    keys file = ["id"; "name"; "webViewLink"; "webContentLink"; "mimeType"; "size"] /\
    forall field, In field (keys file) -> get file field = Some (prop Example.created field).
Proof.
  apply (upload_success Example.accepting Example.clip_request
           (drive_with Example.token)
           (upload_params Example.accepting Example.clip_request "/data/clip.mp4")
           Example.created).
  - vm_compute. tauto.
  - reflexivity.
Defined.

(** ** Logging *)

(** Every run of the upload handler starts by logging the headers of the
    request, serialized in full. *)
Lemma upload_logs_headers (w : World) (req : Request) :
  In (ConsoleLog [LText "Headers:"; LText (Json.stringify (headers req))])
     (upload_trace w req).
Proof.
  assert (Hpre : In (ConsoleLog [LText "Headers:"; LText (Json.stringify (headers req))])
                    (preamble req)) by (right; now left).
  unfold upload_trace.
  destruct (upload_cases w req)
    as [Htok|[(tok & Htok & Hpath)|[(tok & path & Htok & Hpath & Hfs)|(tok & path & Hpass)]]].
  - rewrite (upload_run_no_token w req Htok). apply in_or_app. now left.
  - rewrite (upload_run_no_filePath w req tok Htok Hpath). apply in_or_app. now left.
  - rewrite (upload_run_not_found w req tok path Htok Hpath Hfs).
    apply in_or_app. now left.
  - assert (Hto : In (ConsoleLog [LText "Headers:"; LText (Json.stringify (headers req))])
                     (trace_to_create w req tok path))
      by (unfold trace_to_create; apply in_or_app; now left).
    destruct (drive_files_create w (drive_with tok) (upload_params w req path))
      as [data|error] eqn:Hcall.
    + rewrite (upload_run_created w req tok path data Hpass Hcall).
      cbv beta iota delta [snd]. apply in_or_app. now left.
    + rewrite (upload_run_rejected w req tok path error Hpass Hcall), upload_catch_trace.
      apply in_or_app. now left.
Qed.

(** C9 does not hold of the code: the handler of POST /upload logs the
    serialized headers of the request, and with them the whole bearer token.
    Here the token has 35 characters, so the truncated line of the handler
    shows its first 20, and the line of the headers shows all of it. *)
Theorem upload_logs_complete_token :
  let req := Example.clip_request in
  String.length Example.token = 35 /\
  extractAccessToken req = Some Example.token /\
  In (ConsoleLog [LText "Token encontrado:"; LText "ya29.a0AfB_byC-01234..."])
     (upload_trace Example.accepting req) /\
  In (ConsoleLog [LText "Headers:"; LText (Json.stringify (headers req))])
     (upload_trace Example.accepting req) /\
  occurs Example.token (Json.stringify (headers req)) = true.
Proof.
  cbv zeta. split; [reflexivity|]. split; [reflexivity|].
  split; [vm_compute; tauto|].
  split; [apply upload_logs_headers|reflexivity].
Qed.

(** ** The request boundary *)

(** X2: the upload handler never retries; a run makes at most one
    create-object call. *)
Theorem upload_single_attempt (w : World) (req : Request) :
  create_calls (upload_trace w req) <= 1.
Proof.
  unfold upload_trace, create_calls.
  destruct (upload_cases w req)
    as [Htok|[(tok & Htok & Hpath)|[(tok & path & Htok & Hpath & Hfs)|(tok & path & Hpass)]]].
  - rewrite (upload_run_no_token w req Htok). simpl. lia.
  - rewrite (upload_run_no_filePath w req tok Htok Hpath). simpl. lia.
  - rewrite (upload_run_not_found w req tok path Htok Hpath Hfs). simpl. lia.
  - destruct (drive_files_create w (drive_with tok) (upload_params w req path))
      as [data|error] eqn:Hcall.
    + rewrite (upload_run_created w req tok path data Hpass Hcall). simpl. lia.
    + rewrite (upload_run_rejected w req tok path error Hpass Hcall), upload_catch_trace.
      simpl. lia.
Qed.

(** X3: the auth check is a read-only probe; its only effect is at most one
    listing call, so it makes no create-object call and touches no file. *)
Theorem test_auth_read_only (w : World) (req : Request) :
  test_auth_trace w req = [] \/
  exists accessToken, test_auth_trace w req = [DriveFilesList (drive_with accessToken) probe].
Proof.
  unfold test_auth_trace.
  destruct (truthy_value (extractAccessToken req)) as [tok|] eqn:Htok.
  - right. exists tok.
    destruct (drive_files_list w (drive_with tok) probe) as [files|error] eqn:Hcall.
    + now rewrite (test_auth_run_resolved w req tok files Htok Hcall).
    + now rewrite (test_auth_run_rejected w req tok error Htok Hcall).
  - left. now rewrite (test_auth_run_no_token w req Htok).
Qed.

(** X4: a request with neither a bearer Authorization header nor the
    alternate header is answered 401 by both handlers. *)
Theorem missing_credentials_unauthorized (w : World) (req : Request) :
  no_bearer req ->
  get (headers req) alternate_header = None ->
  upload_result w req =
    Returned
      (mkResponse 401
         (envelope (Str "Invalid Credentials")
            (Arr [detail "No access token provided" "global" "authError"
                    "Authorization" "header"]))) /\
  test_auth_result w req =
    Returned (mkResponse 401 (Object [("error", Str "No access token provided")])).
Proof.
  intros Hno Halt.
  assert (Htok : truthy_value (extractAccessToken req) = None).
  { now rewrite (extractAccessToken_no_bearer req Hno), Halt. }
  split; [now apply upload_result_no_token|].
  unfold test_auth_result. now rewrite (test_auth_run_no_token w req Htok).
Qed.

(** A request with a content type and nothing else in its headers. *)
Lemma missing_credentials_unauthorized_witness :
  let req := mkRequest [("content-type", "application/json")] [("filePath", "/tmp/x.mp4")] in
  upload_result Example.accepting req =
    Returned
      (mkResponse 401
         (envelope (Str "Invalid Credentials")
            (Arr [detail "No access token provided" "global" "authError"
                    "Authorization" "header"]))) /\
  test_auth_result Example.accepting req =
    Returned (mkResponse 401 (Object [("error", Str "No access token provided")])).
Proof.
  apply (missing_credentials_unauthorized Example.accepting
           (mkRequest [("content-type", "application/json")]
                      [("filePath", "/tmp/x.mp4")])).
  - intros rest H. discriminate.
  - reflexivity.
Defined.

(** * Further properties of the handlers *)

Section UploadRuns.

Variable w : World.
Variable req : Request.

(** A run that passes the checks goes through the create-object call. *)
Lemma upload_run_passed (accessToken filePath : string) :
  passes_checks w req accessToken filePath ->
  exists result tail,
    run (upload req) w = (result, (trace_to_create w req accessToken filePath ++ tail)%list).
Proof.
  intros Hpass.
  destruct (drive_files_create w (drive_with accessToken) (upload_params w req filePath))
    as [data|error] eqn:Hcall.
  - rewrite (upload_run_created w req accessToken filePath data Hpass Hcall).
    eexists; eexists; reflexivity.
  - rewrite (upload_run_rejected w req accessToken filePath error Hpass Hcall).
    exists (fst (upload_catch error w (trace_to_create w req accessToken filePath))),
           [ConsoleError [LText "Erro durante o upload:"; LError error]].
    rewrite <- (upload_catch_trace error w (trace_to_create w req accessToken filePath)).
    now destruct (upload_catch error w (trace_to_create w req accessToken filePath)).
Qed.

Lemma truthy_token (accessToken : string) :
  truthy_value (extractAccessToken req) = Some accessToken ->
  extractAccessToken req = Some accessToken /\ accessToken <> EmptyString.
Proof.
  apply truthy_value_Some.
Qed.

(** Every run with a token logs its truncation. *)
Lemma upload_logs_truncated_token (accessToken : string) :
  truthy_value (extractAccessToken req) = Some accessToken ->
  In (ConsoleLog [LText "Token encontrado:"; LText (substring accessToken 0 20 ++ "...")])
     (upload_trace w req).
Proof.
  intros Htok. unfold upload_trace.
  destruct (truthy_value (get (body req) "filePath")) as [path|] eqn:Hpath.
  - destruct (fs_existsSync w path) eqn:Hfs.
    + destruct (upload_run_passed accessToken path (conj Htok (conj Hpath Hfs)))
        as (result & tail & ->).
      cbv beta iota delta [snd]. apply in_or_app. left.
      unfold trace_to_create. apply in_or_app. right. now left.
    + rewrite (upload_run_not_found w req accessToken path Htok Hpath Hfs).
      cbv beta iota delta [snd]. apply in_or_app. right. now left.
  - rewrite (upload_run_no_filePath w req accessToken Htok Hpath).
    cbv beta iota delta [snd]. apply in_or_app. right. now left.
Qed.

End UploadRuns.

Lemma upload_trace_no_list (w : World) (req : Request)
      (drive : DriveClient) (params : ListParams) :
  ~ In (DriveFilesList drive params) (upload_trace w req).
Proof.
  unfold upload_trace.
  destruct (upload_cases w req)
    as [Htok|[(tok & Htok & Hpath)|[(tok & path & Htok & Hpath & Hfs)|(tok & path & Hpass)]]].
  - rewrite (upload_run_no_token w req Htok). simpl. intuition discriminate.
  - rewrite (upload_run_no_filePath w req tok Htok Hpath). simpl. intuition discriminate.
  - rewrite (upload_run_not_found w req tok path Htok Hpath Hfs).
    simpl. intuition discriminate.
  - destruct (drive_files_create w (drive_with tok) (upload_params w req path))
      as [data|error] eqn:Hcall.
    + rewrite (upload_run_created w req tok path data Hpass Hcall).
      simpl. intuition discriminate.
    + rewrite (upload_run_rejected w req tok path error Hpass Hcall), upload_catch_trace.
      simpl. intuition discriminate.
Qed.

Lemma test_auth_trace_no_create (w : World) (req : Request)
      (drive : DriveClient) (params : CreateParams) :
  ~ In (DriveFilesCreate drive params) (test_auth_trace w req).
Proof.
  unfold test_auth_trace.
  destruct (truthy_value (extractAccessToken req)) as [tok|] eqn:Htok.
  - destruct (drive_files_list w (drive_with tok) probe) as [files|error] eqn:Hcall.
    + rewrite (test_auth_run_resolved w req tok files Htok Hcall).
      simpl. intuition discriminate.
    + rewrite (test_auth_run_rejected w req tok error Htok Hcall).
      simpl. intuition discriminate.
  - rewrite (test_auth_run_no_token w req Htok). simpl. tauto.
Qed.

(** X5: the relay has no credential of its own; every provider call of
    either handler goes through a v3 client whose access token is the token
    extracted from the request, and that token is not empty.  The upload
    handler makes no listing call. *)
Theorem provider_calls_carry_token (w : World) (req : Request) :
  (forall drive params,
      In (DriveFilesCreate drive params) (upload_trace w req) ->
      version drive = "v3" /\ access_token drive <> EmptyString /\
      extractAccessToken req = Some (access_token drive)) /\
  (forall drive params,
      In (DriveFilesList drive params) (test_auth_trace w req) ->
      version drive = "v3" /\ access_token drive <> EmptyString /\
      extractAccessToken req = Some (access_token drive)) /\
  (forall drive params, ~ In (DriveFilesList drive params) (upload_trace w req)).
Proof.
  split; [|split].
  - intros drive params Hin.
    destruct (upload_create_call_inv w req drive params Hin)
      as (tok & path & (Htok & _) & -> & _).
    destruct (truthy_token req tok Htok) as [Hsome Hne].
    now repeat split.
  - intros drive params Hin.
    destruct (test_auth_list_call_inv w req drive params Hin) as (tok & Htok & -> & _).
    destruct (truthy_token req tok Htok) as [Hsome Hne].
    now repeat split.
  - intros drive params. apply upload_trace_no_list.
Qed.

(** The upload of the file the disk holds, with a bearer token. *)
Lemma provider_calls_carry_token_witness :
  version (drive_with Example.token) = "v3" /\
  access_token (drive_with Example.token) <> EmptyString /\
  extractAccessToken Example.clip_request = Some (access_token (drive_with Example.token)).
Proof.
  apply (proj1 (provider_calls_carry_token Example.accepting Example.clip_request)
           (drive_with Example.token)
           (upload_params Example.accepting Example.clip_request "/data/clip.mp4")).
  vm_compute. tauto.
Defined.

(** Whatever was thrown, the [catch] block sends an envelope whose error
    text is not empty and whose details are a list. *)
Lemma upload_catch_envelope (error : JsError) (w : World) (t : list Event) :
  exists status message details,
    fst (upload_catch error w t)
      = Returned (mkResponse status (envelope (Str message) (Arr details))) /\
    message <> EmptyString /\ status <> 0%N.
Proof.
  unfold upload_catch. unfold_handler.
  destruct (structured error) as [[response googleError]|];
    [destruct (code_is googleError 401)|].
  - do 3 eexists. split; [reflexivity|]. split; discriminate.
  - do 3 eexists. split; [reflexivity|]. split.
    + destruct (or_else_cases (g_message googleError) "Google Drive API Error")
        as [[_ Hne]|[_ ->]]; [exact Hne|discriminate].
    + destruct (num_or_else_cases (response_status response) 500)
        as [[_ Hne]|[_ ->]]; [exact Hne|discriminate].
  - do 3 eexists. split; [reflexivity|]. split; discriminate.
Qed.

(** X6: every response the upload handler sends has one of two shapes:
    status 200 with a body whose only member is file, or an error envelope
    whose status is not zero and whose error text is not empty, the fallbacks
    of the [catch] block seeing to both. *)
Theorem upload_response_shape (w : World) (req : Request) (response : Response) :
  upload_result w req = Returned response ->
  (status response = 200%N /\
   exists file, json response = Object [("file", Object file)]) \/
  (status response <> 0%N /\
   exists message details,
     json response = envelope (Str message) details /\ message <> EmptyString).
Proof.
  unfold upload_result.
  destruct (upload_cases w req)
    as [Htok|[(tok & Htok & Hpath)|[(tok & path & Htok & Hpath & Hfs)|(tok & path & Hpass)]]].
  - rewrite (upload_run_no_token w req Htok). intros [= <-].
    right. split; [discriminate|]. do 2 eexists. split; [reflexivity|discriminate].
  - rewrite (upload_run_no_filePath w req tok Htok Hpath). intros [= <-].
    right. split; [discriminate|]. do 2 eexists. split; [reflexivity|discriminate].
  - rewrite (upload_run_not_found w req tok path Htok Hpath Hfs). intros [= <-].
    right. split; [discriminate|]. do 2 eexists. split; [reflexivity|discriminate].
  - destruct (drive_files_create w (drive_with tok) (upload_params w req path))
      as [data|error] eqn:Hcall.
    + rewrite (upload_run_created w req tok path data Hpass Hcall). intros [= <-].
      left. split; [reflexivity|]. eexists. reflexivity.
    + rewrite (upload_run_rejected w req tok path error Hpass Hcall).
      destruct (upload_catch_envelope error w (trace_to_create w req tok path))
        as (st & msg & ds & -> & Hmsg & Hst).
      intros [= <-]. right. split; [exact Hst|].
      exists msg, (Arr ds). now split.
Qed.

(** The provider answers 403 with an empty message: the envelope carries the
    generic text. *)
Lemma upload_response_shape_witness :
  let response :=
    mkResponse 403
      (envelope (Str "Google Drive API Error")
         (Arr [Object [("domain", Str "usageLimits");
                       ("reason", Str "rateLimitExceeded")]])) in
  (status response = 200%N /\
   exists file, json response = Object [("file", Object file)]) \/
  (status response <> 0%N /\
   exists message details,
     json response = envelope (Str message) details /\ message <> EmptyString).
Proof.
  apply (upload_response_shape
           (Example.rejecting (Example.payload_error 403 Example.silent_payload))
           Example.clip_request
           (mkResponse 403
              (envelope (Str "Google Drive API Error")
                 (Arr [Object [("domain", Str "usageLimits");
                               ("reason", Str "rateLimitExceeded")]])))).
  reflexivity.
Defined.

(** X7: the relay reports a file only when the provider created one; a
    response whose body starts with a file member has status 200 and comes
    from a run that passed the three checks and whose create-object call
    resolved. *)
Theorem upload_file_only_when_created (w : World) (req : Request)
        (sent_status : N) (file : Val) (rest : list (string * Val)) :
  upload_result w req = Returned (mkResponse sent_status (Object (("file", file) :: rest))) ->
  sent_status = 200%N /\
  exists accessToken filePath data,
    passes_checks w req accessToken filePath /\
    In (DriveFilesCreate (drive_with accessToken) (upload_params w req filePath))
       (upload_trace w req) /\
    drive_files_create w (drive_with accessToken) (upload_params w req filePath)
      = Resolved data.
Proof.
  unfold upload_result.
  destruct (upload_cases w req)
    as [Htok|[(tok & Htok & Hpath)|[(tok & path & Htok & Hpath & Hfs)|(tok & path & Hpass)]]].
  - rewrite (upload_run_no_token w req Htok). discriminate.
  - rewrite (upload_run_no_filePath w req tok Htok Hpath). discriminate.
  - rewrite (upload_run_not_found w req tok path Htok Hpath Hfs). discriminate.
  - destruct (drive_files_create w (drive_with tok) (upload_params w req path))
      as [data|error] eqn:Hcall.
    + rewrite (upload_run_created w req tok path data Hpass Hcall).
      intros [= <- _ _]. split; [reflexivity|].
      exists tok, path, data.
      split; [exact Hpass|]. split; [now apply upload_calls_create|exact Hcall].
    + rewrite (upload_run_rejected w req tok path error Hpass Hcall).
      destruct (upload_catch_envelope error w (trace_to_create w req tok path))
        as (st & msg & ds & -> & _).
      discriminate.
Qed.

(** The provider accepts the upload of the file the disk holds. *)
Lemma upload_file_only_when_created_witness :
  exists accessToken filePath data,
    passes_checks Example.accepting Example.clip_request accessToken filePath /\
    In (DriveFilesCreate (drive_with accessToken)
          (upload_params Example.accepting Example.clip_request filePath))
       (upload_trace Example.accepting Example.clip_request) /\
    drive_files_create Example.accepting (drive_with accessToken)
      (upload_params Example.accepting Example.clip_request filePath)
      = Resolved data.
Proof.
  apply (upload_file_only_when_created Example.accepting Example.clip_request 200
           (Object [("id", Str "1AbC"); ("name", Str "clip.mp4");
                    ("webViewLink", Str "https://drive.google.com/file/d/1AbC/view");
                    ("webContentLink", Str "https://drive.google.com/uc?id=1AbC");
                    ("mimeType", Str "video/mp4"); ("size", Str "1048576")])
           []).
  reflexivity.
Defined.

(** X8: the file the relay streams is the file it checked; in every
    create-object call the media body is the read stream of the filePath of
    the body, that path was found on the filesystem, the content type of the
    media is the content type of the metadata, and the fields asked back are
    the fixed six. *)
Theorem upload_streams_checked_file (w : World) (req : Request)
        (drive : DriveClient) (params : CreateParams) :
  In (DriveFilesCreate drive params) (upload_trace w req) ->
  exists filePath,
    get (body req) "filePath" = Some filePath /\
    fs_existsSync w filePath = true /\
    In (FsExistsSync filePath) (upload_trace w req) /\
    In (FsCreateReadStream filePath) (upload_trace w req) /\
    media_body (media params) = ReadStreamOf filePath /\
    media_mimeType (media params) = mimeType (requestBody params) /\
    fields params = "id, name, webViewLink, webContentLink, mimeType, size".
Proof.
  intros Hin.
  destruct (upload_create_call_inv w req drive params Hin)
    as (tok & path & Hpass & _ & ->).
  exists path.
  destruct Hpass as (Htok & Hpath & Hfs).
  destruct (proj1 (truthy_value_Some _ _) Hpath) as [Hget _].
  assert (Hevents : forall ev, In ev (trace_to_create w req tok path) ->
                               In ev (upload_trace w req)).
  { intros ev Hev. unfold upload_trace.
    destruct (upload_run_passed w req tok path (conj Htok (conj Hpath Hfs)))
      as (result & tail & ->).
    apply in_or_app. now left. }
  repeat split; try assumption.
  - apply Hevents. unfold trace_to_create. apply in_or_app. right. simpl. auto.
  - apply Hevents. unfold trace_to_create. apply in_or_app. right. simpl. auto.
Qed.

(** The upload of the file the disk holds. *)
Lemma upload_streams_checked_file_witness :
  exists filePath,
    get (body Example.clip_request) "filePath" = Some filePath /\
    fs_existsSync Example.accepting filePath = true /\
    In (FsExistsSync filePath) (upload_trace Example.accepting Example.clip_request) /\
    In (FsCreateReadStream filePath) (upload_trace Example.accepting Example.clip_request) /\
    media_body (media (upload_params Example.accepting Example.clip_request "/data/clip.mp4"))
      = ReadStreamOf filePath /\
    media_mimeType
      (media (upload_params Example.accepting Example.clip_request "/data/clip.mp4"))
      = mimeType
          (requestBody
             (upload_params Example.accepting Example.clip_request "/data/clip.mp4")) /\
    fields (upload_params Example.accepting Example.clip_request "/data/clip.mp4")
      = "id, name, webViewLink, webContentLink, mimeType, size".
Proof.
  apply (upload_streams_checked_file Example.accepting Example.clip_request
           (drive_with Example.token)).
  vm_compute. tauto.
Defined.

(** X9: a request without a usable token learns nothing about the
    filesystem; when the token is absent or empty the upload handler only
    writes to the console, the auth check does nothing at all, and the
    response of the upload is the same whatever the body and the world
    are. *)
Theorem unauthenticated_request_touches_nothing (w : World) (req : Request) :
  extractAccessToken req = None \/ extractAccessToken req = Some EmptyString ->
  (forall ev, In ev (upload_trace w req) -> is_console ev = true) /\
  test_auth_trace w req = [] /\
  (forall w' body',
      upload_result w' (mkRequest (headers req) body') = upload_result w req).
Proof.
  intros Hnone. apply truthy_value_None in Hnone.
  split; [|split].
  - unfold upload_trace. rewrite (upload_run_no_token w req Hnone).
    intros ev Hev. simpl in Hev.
    repeat (destruct Hev as [<-|Hev]; [reflexivity|]). contradiction.
  - unfold test_auth_trace. now rewrite (test_auth_run_no_token w req Hnone).
  - intros w' body'.
    assert (Hnone' : truthy_value (extractAccessToken (mkRequest (headers req) body')) = None)
      by exact Hnone.
    now rewrite (upload_result_no_token w' _ Hnone'), (upload_result_no_token w req Hnone).
Qed.

(** A request with no credential header, for a file the disk holds and for
    one it does not hold. *)
Lemma unauthenticated_request_touches_nothing_witness :
  let req := mkRequest [("content-type", "application/json")]
                       [("filePath", "/data/clip.mp4")] in
  upload_result (Example.rejecting Example.network_error)
    (mkRequest (headers req) [("filePath", "/etc/passwd")])
    = upload_result Example.accepting req.
Proof.
  apply (proj2 (proj2 (unauthenticated_request_touches_nothing Example.accepting
                         (mkRequest [("content-type", "application/json")]
                                    [("filePath", "/data/clip.mp4")])
                         (or_introl eq_refl)))).
Defined.

(** ** The truncated token line *)

Lemma substring_length (s : string) (n : nat) :
  String.length (String.substring 0 n s) = Nat.min n (String.length s).
Proof.
  revert n. induction s as [|c s IH]; intros [|n]; simpl; try reflexivity.
  now rewrite IH.
Qed.

Lemma substring_prefix (s : string) (n : nat) :
  startsWith s (String.substring 0 n s) = true.
Proof.
  unfold startsWith. revert n.
  induction s as [|c s IH]; intros [|n]; simpl; try reflexivity.
  destruct (ascii_dec c c) as [_|Hne]; [apply IH|now elim Hne].
Qed.

Lemma substring_short (s : string) (n : nat) :
  String.length s <= n -> String.substring 0 n s = s.
Proof.
  revert n. induction s as [|c s IH]; intros [|n] Hlen; simpl in *;
    try reflexivity; try lia.
  rewrite IH; [reflexivity|lia].
Qed.

(** X10: the token line of the upload handler shows the first 20 characters
    of the token followed by three dots; a token of at most 20 characters is
    therefore logged whole. *)
Theorem upload_token_line (w : World) (req : Request) (accessToken : string) :
  extractAccessToken req = Some accessToken -> accessToken <> EmptyString ->
  exists shown,
    In (ConsoleLog [LText "Token encontrado:"; LText (shown ++ "...")])
       (upload_trace w req) /\
    startsWith accessToken shown = true /\
    String.length shown = Nat.min 20 (String.length accessToken) /\
    (String.length accessToken <= 20 -> shown = accessToken).
Proof.
  intros Hsome Hne.
  assert (Htok : truthy_value (extractAccessToken req) = Some accessToken)
    by (apply truthy_value_Some; now split).
  exists (String.substring 0 20 accessToken).
  split; [exact (upload_logs_truncated_token w req accessToken Htok)|].
  split; [apply substring_prefix|].
  split; [apply substring_length|apply substring_short].
Qed.

(** A token of eight characters. *)
Lemma upload_token_line_witness :
  exists shown,
    In (ConsoleLog [LText "Token encontrado:"; LText (shown ++ "...")])
       (upload_trace Example.accepting
          (mkRequest (Example.bearer "ya29.abc") [("filePath", "/data/clip.mp4")])) /\
    startsWith "ya29.abc" shown = true /\
    String.length shown = Nat.min 20 (String.length "ya29.abc") /\
    (String.length "ya29.abc" <= 20 -> shown = "ya29.abc").
Proof.
  apply (upload_token_line Example.accepting
           (mkRequest (Example.bearer "ya29.abc") [("filePath", "/data/clip.mp4")])
           "ya29.abc").
  - reflexivity.
  - discriminate.
Defined.

(** ** Which header carries the token *)

(** X11: a bearer header shadows the alternate header, its empty form too;
    when the Authorization header is exactly the prefix, the alternate
    header is not looked at, whatever it holds, so both handlers answer 401
    and the provider is not called. *)
Theorem empty_bearer_shadows_alternate (w : World) (req : Request) (value : string) :
  get (headers req) "authorization" = Some "Bearer " ->
  get (headers req) alternate_header = Some value ->
  extractAccessToken req = Some EmptyString /\
  (exists body, upload_result w req = Returned (mkResponse 401 body)) /\
  (exists body, test_auth_result w req = Returned (mkResponse 401 body)) /\
  create_calls (upload_trace w req) = 0 /\
  test_auth_trace w req = [].
Proof.
  intros Hauth _.
  assert (Hsome : extractAccessToken req = Some EmptyString)
    by (now apply extractAccessToken_bearer).
  assert (Htok : truthy_value (extractAccessToken req) = None) by now rewrite Hsome.
  split; [exact Hsome|].
  split; [eexists; now apply upload_result_no_token|].
  split.
  { unfold test_auth_result. rewrite (test_auth_run_no_token w req Htok).
    eexists; reflexivity. }
  split.
  - unfold upload_trace. now rewrite (upload_run_no_token w req Htok).
  - unfold test_auth_trace. now rewrite (test_auth_run_no_token w req Htok).
Qed.

(** An empty bearer header next to an alternate header with a token. *)
Lemma empty_bearer_shadows_alternate_witness :
  let req := mkRequest [("authorization", "Bearer "); (alternate_header, Example.token)]
                       [("filePath", "/data/clip.mp4")] in
  extractAccessToken req = Some EmptyString /\
  (exists body, upload_result Example.accepting req = Returned (mkResponse 401 body)) /\
  (exists body, test_auth_result Example.accepting req = Returned (mkResponse 401 body)) /\
  create_calls (upload_trace Example.accepting req) = 0 /\
  test_auth_trace Example.accepting req = [].
Proof.
  apply (empty_bearer_shadows_alternate Example.accepting
           (mkRequest [("authorization", "Bearer "); (alternate_header, Example.token)]
                      [("filePath", "/data/clip.mp4")])
           Example.token).
  - reflexivity.
  - reflexivity.
Defined.

Lemma upload_catch_result (error : JsError) (w w' : World) (t t' : list Event) :
  fst (upload_catch error w t) = fst (upload_catch error w' t').
Proof.
  unfold upload_catch. unfold_handler.
  destruct (structured error) as [[response googleError]|];
    [destruct (code_is googleError 401)|]; reflexivity.
Qed.

(** X12: the headers matter only through the token; two requests from which
    the same token is extracted get the same response from the auth check,
    and, when their bodies are equal, the same response from the upload,
    whichever header carried the token and whatever else the headers hold. *)
Theorem token_source_is_irrelevant (w : World) (req req' : Request) :
  extractAccessToken req = extractAccessToken req' ->
  test_auth_result w req = test_auth_result w req' /\
  (body req = body req' -> upload_result w req = upload_result w req').
Proof.
  intros Hsame. split.
  - unfold test_auth_result.
    destruct (truthy_value (extractAccessToken req)) as [tok|] eqn:Htok.
    + assert (Htok' : truthy_value (extractAccessToken req') = Some tok)
        by now rewrite <- Hsame.
      destruct (drive_files_list w (drive_with tok) probe) as [files|error] eqn:Hcall.
      * now rewrite (test_auth_run_resolved w req tok files Htok Hcall),
          (test_auth_run_resolved w req' tok files Htok' Hcall).
      * now rewrite (test_auth_run_rejected w req tok error Htok Hcall),
          (test_auth_run_rejected w req' tok error Htok' Hcall).
    + assert (Htok' : truthy_value (extractAccessToken req') = None)
        by now rewrite <- Hsame.
      now rewrite (test_auth_run_no_token w req Htok),
        (test_auth_run_no_token w req' Htok').
  - intros Hbody. unfold upload_result.
    destruct (upload_cases w req)
      as [Htok|[(tok & Htok & Hpath)|[(tok & path & Htok & Hpath & Hfs)|(tok & path & Hpass)]]].
    + assert (Htok' : truthy_value (extractAccessToken req') = None)
        by now rewrite <- Hsame.
      now rewrite (upload_run_no_token w req Htok), (upload_run_no_token w req' Htok').
    + assert (Htok' : truthy_value (extractAccessToken req') = Some tok)
        by now rewrite <- Hsame.
      assert (Hpath' : truthy_value (get (body req') "filePath") = None)
        by now rewrite <- Hbody.
      now rewrite (upload_run_no_filePath w req tok Htok Hpath),
        (upload_run_no_filePath w req' tok Htok' Hpath').
    + assert (Htok' : truthy_value (extractAccessToken req') = Some tok)
        by now rewrite <- Hsame.
      assert (Hpath' : truthy_value (get (body req') "filePath") = Some path)
        by now rewrite <- Hbody.
      now rewrite (upload_run_not_found w req tok path Htok Hpath Hfs),
        (upload_run_not_found w req' tok path Htok' Hpath' Hfs).
    + assert (Hpass' : passes_checks w req' tok path).
      { destruct Hpass as (Htok & Hpath & Hfs). unfold passes_checks.
        now rewrite <- Hsame, <- Hbody. }
      assert (Hparams : upload_params w req' path = upload_params w req path).
      { unfold upload_params, upload_metadata. now rewrite Hbody. }
      destruct (drive_files_create w (drive_with tok) (upload_params w req path))
        as [data|error] eqn:Hcall.
      * assert (Hcall' : drive_files_create w (drive_with tok) (upload_params w req' path)
                         = Resolved data) by now rewrite Hparams.
        now rewrite (upload_run_created w req tok path data Hpass Hcall),
          (upload_run_created w req' tok path data Hpass' Hcall').
      * assert (Hcall' : drive_files_create w (drive_with tok) (upload_params w req' path)
                         = Rejected error) by now rewrite Hparams.
        rewrite (upload_run_rejected w req tok path error Hpass Hcall),
          (upload_run_rejected w req' tok path error Hpass' Hcall').
        apply upload_catch_result.
Qed.

(** The same token in a bearer header and in the alternate header. *)
Lemma token_source_is_irrelevant_witness :
  let by_bearer := Example.clip_request in
  let by_alternate :=
    mkRequest [(alternate_header, Example.token); ("user-agent", "n8n")]
              [("filePath", "/data/clip.mp4")] in
  test_auth_result Example.accepting by_bearer
    = test_auth_result Example.accepting by_alternate /\
  upload_result Example.accepting by_bearer = upload_result Example.accepting by_alternate.
Proof.
  destruct (token_source_is_irrelevant Example.accepting Example.clip_request
              (mkRequest [(alternate_header, Example.token); ("user-agent", "n8n")]
                         [("filePath", "/data/clip.mp4")])
              eq_refl) as [Hauth Hupload].
  split; [exact Hauth|exact (Hupload eq_refl)].
Defined.

(** * The application: CORS, preflight and routes *)

Lemma upload_result_returns (w : World) (req : Request) :
  exists response, upload_result w req = Returned response.
Proof.
  unfold upload_result.
  destruct (upload_cases w req)
    as [Htok|[(tok & Htok & Hpath)|[(tok & path & Htok & Hpath & Hfs)|(tok & path & Hpass)]]].
  - rewrite (upload_run_no_token w req Htok). eexists; reflexivity.
  - rewrite (upload_run_no_filePath w req tok Htok Hpath). eexists; reflexivity.
  - rewrite (upload_run_not_found w req tok path Htok Hpath Hfs). eexists; reflexivity.
  - destruct (drive_files_create w (drive_with tok) (upload_params w req path))
      as [data|error] eqn:Hcall.
    + rewrite (upload_run_created w req tok path data Hpass Hcall). eexists; reflexivity.
    + rewrite (upload_run_rejected w req tok path error Hpass Hcall).
      destruct (upload_catch_envelope error w (trace_to_create w req tok path))
        as (st & msg & ds & -> & _).
      eexists; reflexivity.
Qed.

Lemma upload_run_returns (w : World) (req : Request) :
  exists response, run (upload req) w = (Returned response, upload_trace w req).
Proof.
  destruct (upload_result_returns w req) as [response H].
  exists response. revert H. unfold upload_result, upload_trace.
  destruct (run (upload req) w) as [result t]. simpl. now intros ->.
Qed.

Lemma test_auth_run_returns (w : World) (req : Request) :
  exists response, run (test_auth req) w = (Returned response, test_auth_trace w req).
Proof.
  unfold test_auth_trace.
  destruct (truthy_value (extractAccessToken req)) as [tok|] eqn:Htok.
  - destruct (drive_files_list w (drive_with tok) probe) as [files|error] eqn:Hcall.
    + rewrite (test_auth_run_resolved w req tok files Htok Hcall). eexists; reflexivity.
    + rewrite (test_auth_run_rejected w req tok error Htok Hcall). eexists; reflexivity.
  - rewrite (test_auth_run_no_token w req Htok). eexists; reflexivity.
Qed.

Section Application.

Variable router : string -> string -> option Route.
Variable now : string.
Variable w : World.

Lemma app_run_preflight (path : string) (req : Request) :
  run (app_chain router now "OPTIONS" path req) w =
    (Returned
       (mkReply
          [("Access-Control-Allow-Origin", "*");
           ("Access-Control-Allow-Headers",
            "Origin, X-Requested-With, Content-Type, Accept, Authorization");
           ("Access-Control-Allow-Methods", "GET, POST, PUT, DELETE, OPTIONS")]
          (SentStatus 200)),
     []).
Proof.
  reflexivity.
Qed.

Lemma app_run_routed (method path : string) (req : Request) :
  method <> "OPTIONS" ->
  exists sent trace,
    run (app_chain router now method path req) w =
      (Returned
         (mkReply
            [("Access-Control-Allow-Origin", "*");
             ("Access-Control-Allow-Headers",
              "Origin, X-Requested-With, Content-Type, Accept, Authorization");
             ("Access-Control-Allow-Methods", "GET, POST, PUT, DELETE, OPTIONS")]
            sent),
       trace) /\
    match router method path with
    | Some UploadRoute =>
        (exists response,
            sent = SentJson response /\ upload_result w req = Returned response) /\
        trace = upload_trace w req
    | Some TestAuthRoute =>
        (exists response,
            sent = SentJson response /\ test_auth_result w req = Returned response) /\
        trace = test_auth_trace w req
    | Some HealthRoute =>
        sent = SentJson
                 (mkResponse 200
                    (Object [("status", Str "ok"); ("timestamp", Str now);
                             ("version", Str "1.0.0")])) /\
        trace = []
    | None => sent = Unrouted /\ trace = []
    end.
Proof.
  intros Hmethod. apply String.eqb_neq in Hmethod.
  unfold_app. rewrite Hmethod.
  destruct (router method path) as [[| |]|].
  - destruct (upload_run_returns w req) as [response Hrun].
    unfold run in Hrun. rewrite Hrun.
    exists (SentJson response), (upload_trace w req).
    split; [reflexivity|]. split; [|reflexivity].
    exists response. split; [reflexivity|].
    unfold upload_result, run. now rewrite Hrun.
  - do 2 eexists. split; [reflexivity|]. now split.
  - destruct (test_auth_run_returns w req) as [response Hrun].
    unfold run in Hrun. rewrite Hrun.
    exists (SentJson response), (test_auth_trace w req).
    split; [reflexivity|]. split; [|reflexivity].
    exists response. split; [reflexivity|].
    unfold test_auth_result, run. now rewrite Hrun.
  - do 2 eexists. split; [reflexivity|]. now split.
Qed.

End Application.




(** X15: provider calls happen only behind their own route.  In a run of the
    chain a create-object call means the request was not a preflight and was
    routed to the upload, a listing call means it was routed to the auth
    check, and a request routed to the health check is answered 200 with
    status ok, the timestamp of the clock and version 1.0.0 without any
    effect, whatever its headers. *)
Theorem provider_calls_by_route
        (router : string -> string -> option Route) (now : string) (w : World)
        (method path : string) (req : Request) :
  (forall drive params,
      In (DriveFilesCreate drive params)
         (snd (run (app_chain router now method path req) w)) ->
      method <> "OPTIONS" /\ router method path = Some UploadRoute) /\
  (forall drive params,
      In (DriveFilesList drive params)
         (snd (run (app_chain router now method path req) w)) ->
      method <> "OPTIONS" /\ router method path = Some TestAuthRoute) /\
  (method <> "OPTIONS" -> router method path = Some HealthRoute ->
   exists reply,
     run (app_chain router now method path req) w = (Returned reply, []) /\
     sent reply =
       SentJson
         (mkResponse 200
            (Object [("status", Str "ok"); ("timestamp", Str now);
                     ("version", Str "1.0.0")]))).
Proof.
  destruct (String.eqb_spec method "OPTIONS") as [->|Hmethod].
  - rewrite app_run_preflight. simpl.
    split; [|split]; try (intros ? ? []). intros Hne. now elim Hne.
  - destruct (app_run_routed router now w method path req Hmethod)
      as (sent & trace & -> & Hroute).
    cbv beta iota delta [snd].
    destruct (router method path) as [[| |]|].
    + destruct Hroute as [_ ->].
      split; [now split|]. split; [|discriminate].
      intros drive params Hin.
      now elim (upload_trace_no_list w req drive params).
    + destruct Hroute as [-> ->].
      split; [intros ? ? []|]. split; [intros ? ? []|].
      intros _ _. eexists. split; reflexivity.
    + destruct Hroute as [_ ->].
      split; [|split; [now split|discriminate]].
      intros drive params Hin.
      now elim (test_auth_trace_no_create w req drive params).
    + destruct Hroute as [-> ->].
      split; [intros ? ? []|]. split; [intros ? ? []|discriminate].
Qed.

(** A health check without any credential. *)
Lemma provider_calls_by_route_witness :
  exists reply,
    run (app_chain exact_router "2026-01-01T00:00:00.000Z" "GET" "/health"
           (mkRequest [] [])) Example.accepting
      = (Returned reply, []) /\
    sent reply =
      SentJson
        (mkResponse 200
           (Object [("status", Str "ok");
                    ("timestamp", Str "2026-01-01T00:00:00.000Z");
                    ("version", Str "1.0.0")])).
Proof.
  apply (proj2 (proj2 (provider_calls_by_route exact_router "2026-01-01T00:00:00.000Z"
                         Example.accepting "GET" "/health" (mkRequest [] [])))).
  - discriminate.
  - reflexivity.
Defined.

(** * What the provider is sent *)

Lemma or_else_not_empty (v : option string) (d : string) :
  d <> EmptyString -> or_else v d <> EmptyString.
Proof.
  intros Hd. destruct (or_else_cases v d) as [[_ Hne]|[_ ->]]; assumption.
Qed.

(** X16: the metadata of every create-object call is well formed for the
    provider: its content type is never empty, and its parents, when set,
    are a single folder id that is neither empty nor the sentinel root, the
    folderId of the body. *)
Theorem upload_metadata_well_formed (w : World) (req : Request)
        (drive : DriveClient) (params : CreateParams) :
  In (DriveFilesCreate drive params) (upload_trace w req) ->
  mimeType (requestBody params) <> EmptyString /\
  forall list,
    parents (requestBody params) = Some list ->
    exists folderId,
      list = [folderId] /\ folderId <> EmptyString /\ folderId <> "root" /\
      get (body req) "folderId" = Some folderId.
Proof.
  intros Hin.
  destruct (upload_create_call_inv w req drive params Hin)
    as (tok & path & _ & _ & ->).
  unfold upload_params, upload_metadata. cbn [requestBody].
  split.
  - rewrite fileMetadata_mimeType. apply or_else_not_empty. discriminate.
  - intros list. unfold fileMetadata.
    destruct (truthy_value (get (body req) "folderId")) as [f|] eqn:Hf;
      [|discriminate].
    apply truthy_value_Some in Hf as [Hget Hne].
    destruct (String.eqb_spec f "root") as [->|Hroot]; [discriminate|].
    intros [= <-]. now exists f.
Qed.

(** An upload into a folder. *)
Lemma upload_metadata_well_formed_witness :
  let req := mkRequest (Example.bearer Example.token)
               [("filePath", "/data/clip.mp4"); ("folderId", "1FoLdEr")] in
  mimeType (requestBody (upload_params Example.accepting req "/data/clip.mp4"))
    <> EmptyString /\
  forall list,
    parents (requestBody (upload_params Example.accepting req "/data/clip.mp4"))
      = Some list ->
    exists folderId,
      list = [folderId] /\ folderId <> EmptyString /\ folderId <> "root" /\
      get (body req) "folderId" = Some folderId.
Proof.
  apply (upload_metadata_well_formed Example.accepting
           (mkRequest (Example.bearer Example.token)
              [("filePath", "/data/clip.mp4"); ("folderId", "1FoLdEr")])
           (drive_with Example.token)).
  vm_compute. tauto.
Defined.
